(** * ecobee-manager: the credential run and the Sunroom heater rule

    A shallow embedding of [ecobee.js] and the properties proved of it.
    The script is one asynchronous function: it loads a JSON settings
    file, obtains an ecobee access token (registration with a PIN, then
    the token exchange), polls the thermostats and, for the sensor named
    [Sunroom], switches a TP-Link plug and mails an alert.

    - JSON values, and the settings object as a string-keyed map.
    - [async]: the statements of the script as a tree of effects
      (console, journal, settings file, the mutable [settings] variable,
      [await], [process.exit], functions called without [await]).
    - [run_sync], [step], [run]: the process, with its table of
      suspended functions, resumed in any order.  The [async] callbacks
      that [remoteSensors.forEach] starts all share the one [settings]
      object, so the order is part of the input.
    - [wp], [preserves]: invariants that hold whatever the order is. *)

From stdpp Require Import gmap strings list fin_maps.
From Stdlib Require Import ZArith Lia Ascii String.

Local Open Scope string_scope.
Local Open Scope list_scope.
Local Open Scope Z_scope.

(* ===================================================================== *)
(** ** JSON values *)
(* ===================================================================== *)

(** What [JSON.parse] produces.  Numbers are kept as integers: the
    script never computes with a number read from the settings file or
    from a token response, it only tests them for truthiness.

    [snapshot] is the settings object: the file is taken to hold a JSON
    object.  A lookup [s !! key] is the property read [settings.key],
    [None] being JavaScript's [undefined]. *)
#[warnings="-register-all"]
Inductive jsval : Type :=
| JNull
| JBool (b : bool)
| JNum (n : Z)
| JStr (s : string)
| JArr (l : list jsval)
| JObj (fields : list (string * jsval)).

Abbreviation snapshot := (gmap string jsval).

(** JavaScript truthiness ([ToBoolean]) of a JSON value. *)
Definition truthy (v : jsval) : bool :=
  match v with
  | JNull => false
  | JBool b => b
  | JNum n => negb (Z.eqb n 0)
  | JStr s => negb (String.eqb s "")
  | JArr _ => true
  | JObj _ => true
  end.

(** Truthiness of a property that may be [undefined]. *)
Definition truthy_prop (v : option jsval) : bool :=
  match v with
  | Some v => truthy v
  | None => false
  end.

(** Whether converting [v] to a primitive throws a [TypeError].  An
    object that [JSON.parse] built has no callable [toString] of its own
    when it has a key of that name, and its [valueOf] never gives a
    primitive; an array is converted with [join], which converts every
    element that is not [null]. *)
Fixpoint toString_throws (v : jsval) : bool :=
  match v with
  | JObj fields => existsb (λ field, String.eqb field.1 "toString") fields
  | JArr l => existsb toString_throws l
  | _ => false
  end.

(** Whether [v], converted without a throw, is the text [word], for a
    [word] that is not empty, has no comma and is not the text of a
    number, of a boolean or of an object (the script compares with
    ['authorization_expired']).  A string compares by content; numbers,
    booleans and [null] never equal such a word; an array converts to
    the texts of its elements joined by commas, which for a one-element
    array is the text of that element; a plain object converts to
    ["[object Object]"]. *)
Fixpoint word_matches (v : jsval) (word : string) : bool :=
  match v with
  | JStr s => String.eqb s word
  | JArr [x] => word_matches x word
  | _ => false
  end.

(** [v == word] for such a [word]: [None] when the comparison throws. *)
Definition loose_eq_word (v : jsval) (word : string) : option bool :=
  if toString_throws v then None else Some (word_matches v word).

(** [v !== word]: strict inequality with a string constant. *)
Definition strict_neq_word (v : option jsval) (word : string) : bool :=
  match v with
  | Some (JStr s) => negb (String.eqb s word)
  | _ => true
  end.

(** [obj.key = value], where the right-hand side may be [undefined].
    A property holding [undefined] reads as [undefined], is falsy and is
    left out by [JSON.stringify], exactly like a missing one. *)
Definition assign (key : string) (value : option jsval) (obj : snapshot) : snapshot :=
  match value with
  | Some v => <[key := v]> obj
  | None => delete key obj
  end.

(** [{ ...a, ...b }]: the properties of [b] win. *)
Definition spread (a b : snapshot) : snapshot := b ∪ a.

(* ===================================================================== *)
(** ** Temperatures *)
(* ===================================================================== *)

(** The value of the script's [temp]: the text produced by
    [toFixed(1)], read back as a number by the comparisons [temp>12],
    [temp<11], [temp<5].  It is a number of tenths of a degree Celsius,
    or [NaN] when the sensor value was not numeric (ecobee sends
    ["unknown"] for a sensor it cannot reach).  The initial [temp = 0]
    of the callback is [Tenths 0]. *)
Inductive reading : Type :=
| Tenths (d : Z)
| NaN.

(** The value of a decimal digit. *)
Definition digit_of_ascii (c : ascii) : option Z :=
  let n := Z.of_N (Ascii.N_of_ascii c) in
  if (48 <=? n) && (n <=? 57) then Some (n - 48) else None.

(** The number written by a run of decimal digits. *)
Fixpoint digits_value (acc : Z) (s : string) : option Z :=
  match s with
  | EmptyString => Some acc
  | String c rest =>
      match digit_of_ascii c with
      | Some d => digits_value (10 * acc + d) rest
      | None => None
      end
  end.

(** [Number(text)] on the texts the API sends: an optionally signed
    decimal integer (tenths of a degree Fahrenheit); the empty text is 0;
    a word is [NaN] ([None]).  The other numeric literals of the
    language (a fraction, an exponent, a leading [+], surrounding white
    space, a hexadecimal literal, [Infinity]) and integers that double
    precision cannot hold are no values of the API; this definition
    does not read them as the script would, and [api_value] below
    delimits the texts on which it does. *)
Definition js_Number (text : string) : option Z :=
  match text with
  | EmptyString => Some 0
  | String "-"%char EmptyString => None
  | String "-"%char rest => Z.opp <$> digits_value 0 rest
  | _ => digits_value 0 text
  end.

(** [((f - 320) * 5/90).toFixed(1)] for an integer [f]: the quotient
    [(f-320)*5/9] counts tenths of a degree and is rounded to the nearest
    integer.  Its fractional part is a multiple of 1/9, never 1/2, so the
    rounding has no ties and the double-precision division cannot change
    its result. *)
Definition to_celsius (f : option Z) : reading :=
  match f with
  | Some f => Tenths ((2 * ((f - 320) * 5) + 9) / 18)
  | None => NaN
  end.

(** A word: a text that starts with a letter other than [I].  No
    numeric literal starts so ([Infinity] is one), and [Number] reads
    every such text as [NaN]; ecobee sends the word [unknown] for a
    sensor it cannot reach. *)
Definition is_letter (c : ascii) : bool :=
  let n := Z.of_N (Ascii.N_of_ascii c) in
  ((65 <=? n) && (n <=? 90)) || ((97 <=? n) && (n <=? 122)).

Definition word_text (text : string) : bool :=
  match text with
  | String c _ => is_letter c && negb (Ascii.eqb c "I")
  | EmptyString => false
  end.

(** The values that the API documents for a [temperature] capability:
    a whole number of tenths of a degree (here of at most a billion,
    far inside the range where double precision is exact), or a word. *)
Definition api_value (text : string) : bool :=
  match js_Number text with
  | Some f => Z.abs f <=? 1000000000
  | None => word_text text
  end.

(** [temp > degrees] and [temp < degrees]; every comparison with [NaN]
    is false. *)
Definition temp_gt (temp : reading) (degrees : Z) : bool :=
  match temp with
  | Tenths d => 10 * degrees <? d
  | NaN => false
  end.

Definition temp_lt (temp : reading) (degrees : Z) : bool :=
  match temp with
  | Tenths d => d <? 10 * degrees
  | NaN => false
  end.

(* ===================================================================== *)
(** ** The thermostat payload *)
(* ===================================================================== *)

(** The fields the script reads of the thermostat response, typed as
    the ecobee API documents them. *)
Record capability := Capability {
  cap_type : string;
  cap_value : string }.

Record remoteSensor := RemoteSensor {
  sensor_name : string;
  sensor_capability : list capability }.

Record runtime := Runtime {
  connected : bool;
  actualTemperature : Z;
  actualHumidity : Z }.

Record thermostat := Thermostat {
  thermostat_name : string;
  thermostat_runtime : runtime;
  remoteSensors : list remoteSensor }.

Record api_status := ApiStatus {
  status_code : Z;
  status_message : string }.

(** [response.data] of the thermostat request. *)
Record thermostat_data := ThermostatData {
  status : api_status;
  thermostatList : list thermostat }.

(* ===================================================================== *)
(** ** Requests to the outside world *)
(* ===================================================================== *)

(** A piece of a template literal: fixed text, an interpolated JSON
    value ([None] prints as [undefined]) or an interpolated [temp]. *)
Inductive fragment : Type :=
| Lit (text : string)
| Val (v : option jsval)
| Temp (t : reading).

(** Every promise the script awaits. *)
Inductive op : Type :=
| AxiosGetAuthorize (client_id : string)
| AxiosPostToken (body : list fragment)
| AxiosGetThermostat (authorization : list fragment)
| TplinkLogin (user pass term : string)
| TplinkGetDeviceList
| TplinkPower (alias : string) (on : bool)
| SendMail (recipient : list fragment) (subject text : list fragment).

(** How an axios call settles: a response, or an error that carries the
    provider's response when there was one ([error.response]). *)
Inductive axios_result (D : Type) : Type :=
| Response (data : D)
| AxiosError (message : string) (response : option D).
Arguments Response {D} data.
Arguments AxiosError {D} message response.

(** How any other promise settles. *)
Inductive settled (D : Type) : Type :=
| Fulfilled (value : D)
| Rejected (reason : string).
Arguments Fulfilled {D} value.
Arguments Rejected {D} reason.

(** The type of the value an awaited request settles with.  A power
    command settles with [response.system.set_relay_state.err_code]. *)
Definition res (o : op) : Type :=
  match o with
  | AxiosGetAuthorize _ => axios_result snapshot
  | AxiosPostToken _ => axios_result snapshot
  | AxiosGetThermostat _ => axios_result thermostat_data
  | TplinkLogin _ _ _ => settled unit
  | TplinkGetDeviceList => settled unit
  | TplinkPower _ _ => settled Z
  | SendMail _ _ _ => settled unit
  end.

(** [response.data] of any axios call. *)
Inductive axios_data : Type :=
| JsonData (data : snapshot)
| ThermostatReply (data : thermostat_data).

(** What can be thrown.  An axios error has a [message] and, when the
    provider answered, a [response]. *)
Inductive exn : Type :=
| AxiosFailure (message : string) (response : option axios_data)
| TplinkFailure (reason : string)
| MailRejected
| ReadError
| TypeError.

(** The lines the script prints.  [Console] lines go to standard
    output, [Journal] lines are appended to the log file. *)
Inductive message : Type :=
| MsgStarting
| MsgSettingsUnreadable
| MsgUserActionRequired (pin : option jsval)
| MsgUpdatingToken
| MsgTokenError
| MsgLoadFailed (error : string)
| MsgApiError (text : string) (cleared : bool)
| MsgTimestamp
| MsgNotConnected
| MsgThermostat (name : string) (temp : reading) (humidity : Z)
| MsgSensor (name : string) (temp : reading) (occupancy : bool)
| MsgTurningOff (temp : reading)
| MsgFailedOff (temp : reading)
| MsgTurningOn (temp : reading)
| MsgFailedOn (temp : reading)
| MsgSunroomProblem
| MsgMailError (error : string)
| MsgMailSent.

(* ===================================================================== *)
(** ** Asynchronous programs *)
(* ===================================================================== *)

(** The script's statements as a tree.  [Await o k] suspends the
    running function until [o] settles; [Spawn p k] calls the async
    function [p] without awaiting it (an [async] callback given to
    [forEach]) and goes on with [k] when [p] first suspends. *)
Inductive async (A : Type) : Type :=
| Ret (a : A)
| Throw (e : exn)
| Exit (code : Z)
| ConsoleLog (m : message) (k : async A)
| AppendLog (m : message) (k : async A)
| WriteSettingsFile (doc : snapshot) (k : async A)
| ReadSettingsFile (k : option snapshot → async A)
| GetSettings (k : snapshot → async A)
| SetSettings (f : snapshot → snapshot) (k : async A)
| Await (o : op) (k : res o → async A)
| Spawn (p : async unit) (k : async A).
Arguments Ret {A} a.
Arguments Throw {A} e.
Arguments Exit {A} code.
Arguments ConsoleLog {A} m k.
Arguments AppendLog {A} m k.
Arguments WriteSettingsFile {A} doc k.
Arguments ReadSettingsFile {A} k.
Arguments GetSettings {A} k.
Arguments SetSettings {A} f k.
Arguments Await {A} o k.
Arguments Spawn {A} p k.

Fixpoint bind {A B : Type} (p : async A) (f : A → async B) : async B :=
  match p with
  | Ret a => f a
  | Throw e => Throw e
  | Exit code => Exit code
  | ConsoleLog m k => ConsoleLog m (bind k f)
  | AppendLog m k => AppendLog m (bind k f)
  | WriteSettingsFile doc k => WriteSettingsFile doc (bind k f)
  | ReadSettingsFile k => ReadSettingsFile (λ x, bind (k x) f)
  | GetSettings k => GetSettings (λ s, bind (k s) f)
  | SetSettings g k => SetSettings g (bind k f)
  | Await o k => Await o (λ r, bind (k r) f)
  | Spawn q k => Spawn q (bind k f)
  end.

(** [try { p } catch (e) { h e }].  A function started without [await]
    inside the [try] block is not covered by it. *)
Fixpoint try_catch {A : Type} (p : async A) (h : exn → async A) : async A :=
  match p with
  | Ret a => Ret a
  | Throw e => h e
  | Exit code => Exit code
  | ConsoleLog m k => ConsoleLog m (try_catch k h)
  | AppendLog m k => AppendLog m (try_catch k h)
  | WriteSettingsFile doc k => WriteSettingsFile doc (try_catch k h)
  | ReadSettingsFile k => ReadSettingsFile (λ x, try_catch (k x) h)
  | GetSettings k => GetSettings (λ s, try_catch (k s) h)
  | SetSettings g k => SetSettings g (try_catch k h)
  | Await o k => Await o (λ r, try_catch (k r) h)
  | Spawn q k => Spawn q (try_catch k h)
  end.

Declare Scope async_scope.
Delimit Scope async_scope with async.
Notation "'let*' x ':=' p 'in' q" := (bind p (λ x, q))
  (at level 10, x name, p at level 100, q at level 200) : async_scope.
Notation "p >> q" := (bind p (λ _, q))
  (at level 100, q at level 200, right associativity) : async_scope.
Local Open Scope async_scope.

(** Statements. *)
Definition console_log (m : message) : async unit := ConsoleLog m (Ret tt).

Definition get_settings : async snapshot := GetSettings Ret.

Definition update_settings (f : snapshot → snapshot) : async unit := SetSettings f (Ret tt).

Definition process_exit {A : Type} (code : Z) : async A := Exit code.

(** [list.forEach(callback)] with an ordinary callback, and with an
    [async] callback, whose promise [forEach] drops. *)
Fixpoint for_each {X : Type} (l : list X) (callback : X → async unit) : async unit :=
  match l with
  | [] => Ret tt
  | x :: rest => callback x >> for_each rest callback
  end.

Definition for_each_async {X : Type} (l : list X) (callback : X → async unit) : async unit :=
  for_each l (λ x, Spawn (callback x) (Ret tt)).

(** [await] of the promises: the value they are fulfilled with, or a
    throw at the [await]. *)
Definition axios_json (r : axios_result snapshot) : async snapshot :=
  match r with
  | Response data => Ret data
  | AxiosError message response => Throw (AxiosFailure message (JsonData <$> response))
  end.

Definition axios_thermostat (r : axios_result thermostat_data) : async thermostat_data :=
  match r with
  | Response data => Ret data
  | AxiosError message response =>
      Throw (AxiosFailure message (ThermostatReply <$> response))
  end.

Definition tplink_call {D : Type} (r : settled D) : async D :=
  match r with
  | Fulfilled value => Ret value
  | Rejected reason => Throw (TplinkFailure reason)
  end.

(** [error.message] and [error.response] of a caught exception. *)
Definition error_message (e : exn) : string :=
  match e with
  | AxiosFailure message _ => message
  | TplinkFailure reason => reason
  | _ => ""
  end.

Definition error_response (e : exn) : option axios_data :=
  match e with
  | AxiosFailure _ response => response
  | _ => None
  end.

(** The settings of the [.env] file, read once when the process starts
    (a process without a [.env] file exits before the script runs). *)
Record config := Config {
  API_KEY : string;
  SMTP_LOGIN : string;
  SMTP_PASS : string;
  TPLINK_USER : string;
  TPLINK_PASS : string;
  TPLINK_TERM : string }.

(* ===================================================================== *)
(** ** The script *)
(* ===================================================================== *)

Section Script.

Variable env : config.

(** [logWrite]: one line appended to the log file, then printed. *)
Definition logWrite (output : message) : async unit :=
  AppendLog output (ConsoleLog output (Ret tt)).

(** [settingsSave]: the whole document is written over the file. *)
Definition settingsSave (settings : snapshot) : async unit :=
  WriteSettingsFile settings (Ret tt).

(** [mailSend].  The [sendMail] callback logs an error and rejects the
    promise, then in every case logs the success line, closes the
    transport and resolves (a no-op after a reject). *)
Definition mailSend (subject text : list fragment) : async unit :=
  Await (SendMail [Lit "Alerter <"; Lit (SMTP_LOGIN env); Lit ">"] subject text)
    (λ r, match r with
          | Rejected error =>
              ConsoleLog (MsgMailError error) (ConsoleLog MsgMailSent (Throw MailRejected))
          | Fulfilled _ => ConsoleLog MsgMailSent (Ret tt)
          end).

(** [deviceToggle]: log in, list the devices, send the power command,
    and report whether the relay answered with error code 0.  The
    lookup [getHS110(name)] is part of the power command: a plug that
    is not in the list makes the command fail. *)
Definition deviceToggle (name powerMode : string) : async bool :=
  let* tplink := Await (TplinkLogin (TPLINK_USER env) (TPLINK_PASS env) (TPLINK_TERM env))
                       (@tplink_call unit) in
  let* dl := Await TplinkGetDeviceList (@tplink_call unit) in
  let* err_code := Await (TplinkPower name (String.eqb powerMode "powerOn"))
                         (@tplink_call Z) in
  Ret (err_code =? 0).

(** Lines 87-95: start with an empty object, replace it by the parsed
    file; when the file cannot be read or parsed, write an empty
    document and keep the empty object. *)
Definition load_settings : async unit :=
  console_log MsgStarting >>
  update_settings (λ _, ∅) >>
  try_catch
    (ReadSettingsFile (λ parsed,
       match parsed with
       | Some doc => update_settings (λ _, doc)
       | None => Throw ReadError
       end))
    (λ e, console_log MsgSettingsUnreadable >> settingsSave ∅).

(** Lines 98-115: registering the application with a PIN. *)
Definition add_app : async unit :=
  let* settings := get_settings in
  if negb (truthy_prop (settings !! "authCode")) then
    let* response := Await (AxiosGetAuthorize (API_KEY env)) axios_json in
    let pin := response !! "ecobeePin" in
    update_settings (assign "authCode" (response !! "code")) >>
    console_log (MsgUserActionRequired pin) >>
    (let* settings := get_settings in settingsSave settings) >>
    let* mailResponse := mailSend [Lit "!App Auth Required"]
                                  [Lit "You need to relogin to the Ecobee app"] in
    process_exit 1
  else Ret tt.

(** Lines 125-127: the body of the token request. *)
Definition token_request (settings : snapshot) : list fragment :=
  [Lit "client_id="; Lit (API_KEY env); Lit "&"] ++
  (if truthy_prop (settings !! "refresh_token")
   then [Lit "grant_type=refresh_token&code="; Val (settings !! "refresh_token")]
   else [Lit "grant_type=ecobeePin&code="; Val (settings !! "authCode")]).

(** Lines 129-144: what is done with the [response.data] of the token
    request.  The comparison of line 132 can throw, after the journal
    line and before anything is deleted. *)
Definition on_token (data : snapshot) : async unit :=
  if truthy_prop (data !! "error") then
    logWrite MsgTokenError >>
    (match from_option (λ e, loose_eq_word e "authorization_expired") (Some false)
             (data !! "error") with
     | Some true => update_settings (delete "authCode")
     | Some false => update_settings (delete "access_token")
     | None => Throw TypeError
     end) >>
    (let* settings := get_settings in settingsSave settings) >>
    process_exit 1
  else
    update_settings (λ settings, spread settings data) >>
    let* settings := get_settings in settingsSave settings.

(** Lines 121-145: exchanging the refresh token or the authorization
    code for an access token. *)
Definition update_token : async unit :=
  let* settings := get_settings in
  if negb (truthy_prop (settings !! "access_token")) then
    console_log MsgUpdatingToken >>
    let* response := Await (AxiosPostToken (token_request settings)) axios_json in
    on_token response
  else Ret tt.

(** Lines 202-208: the capabilities of a sensor, from [temp = 0] and
    [occupancy = false]. *)
Definition read_capability (acc : reading * bool) (c : capability) : reading * bool :=
  if String.eqb (cap_type c) "temperature"
  then (to_celsius (js_Number (cap_value c)), acc.2)
  else if String.eqb (cap_type c) "occupancy"
  then (acc.1, String.eqb (cap_value c) "true")
  else acc.

Definition read_capabilities (caps : list capability) : reading * bool :=
  fold_left read_capability caps (Tenths 0, false).

(** Lines 201-241: the [async] callback run for each remote sensor. *)
Definition on_remoteSensor (rs : remoteSensor) : async unit :=
  let temp := (read_capabilities (sensor_capability rs)).1 in
  let occupancy := (read_capabilities (sensor_capability rs)).2 in
  logWrite (MsgSensor (sensor_name rs) temp occupancy) >>
  if String.eqb (sensor_name rs) "Sunroom" then
    let* settings := get_settings in
    (if temp_gt temp 12 && strict_neq_word (settings !! "device_SunroomHeater") "powerOff" then
       let powerMode := "powerOff" in
       let* result := deviceToggle "SunroomHeater" powerMode in
       if result : bool then
         update_settings (<["device_SunroomHeater" := JStr powerMode]>) >>
         logWrite (MsgTurningOff temp)
       else
         logWrite (MsgFailedOff temp)
     else if temp_lt temp 11 && strict_neq_word (settings !! "device_SunroomHeater") "powerOn" then
       let powerMode := "powerOn" in
       let* result := deviceToggle "SunroomHeater" powerMode in
       if result : bool then
         update_settings (<["device_SunroomHeater" := JStr powerMode]>) >>
         logWrite (MsgTurningOn temp)
       else
         logWrite (MsgFailedOn temp)
     else Ret tt) >>
    (let* settings := get_settings in settingsSave settings) >>
    if temp_lt temp 5 then
      let* mailResponse :=
        mailSend [Lit "!Sunroom Temperature "; Temp temp; Lit " degrees"]
                 [Lit "Sunroom temperature "; Temp temp; Lit " degrees: action required"] in
      logWrite MsgSunroomProblem
    else Ret tt
  else Ret tt.

(** Lines 190-242: the callback run for each thermostat. *)
Definition on_thermostat (t : thermostat) : async unit :=
  if negb (connected (thermostat_runtime t)) then
    logWrite MsgNotConnected
  else
    let runTime := thermostat_runtime t in
    let temp := to_celsius (Some (actualTemperature runTime)) in
    let humidity := actualHumidity runTime in
    logWrite (MsgThermostat (thermostat_name t) temp humidity) >>
    for_each_async (remoteSensors t) on_remoteSensor.

(** Line 161: the [Authorization] header. *)
Definition authorization (settings : snapshot) : list fragment :=
  [Val (settings !! "token_type"); Lit " "; Val (settings !! "access_token")].

(** Lines 173-242: what is done with the [response] of the thermostat
    request, which is [undefined] ([None]) when the request failed
    without an answer from the provider. *)
Definition on_response (response : option axios_data) : async unit :=
  match response with
  | Some (ThermostatReply data) =>
      let statusCode := status_code (status data) in
      if negb (statusCode =? 0) then
        logWrite (MsgApiError (status_message (status data)) (statusCode =? 14)) >>
        (if statusCode =? 14 then
           update_settings (delete "access_token") >>
           let* settings := get_settings in settingsSave settings
         else Ret tt) >>
        process_exit 1
      else
        logWrite MsgTimestamp >>
        for_each (thermostatList data) on_thermostat
  | _ => Throw TypeError
  end.

(** Lines 149-171: the thermostat request, inside [try]/[catch]. *)
Definition read_sensors : async unit :=
  let* settings := get_settings in
  let* response :=
    try_catch
      (let* response :=
         Await (AxiosGetThermostat (authorization settings)) axios_thermostat in
       Ret (Some (ThermostatReply response)))
      (λ error,
         console_log (MsgLoadFailed (error_message error)) >>
         Ret (error_response error)) in
  on_response response.

(** Lines 86-244: the script. *)
Definition main : async unit :=
  load_settings >> add_app >> update_token >> read_sensors.

End Script.

(** The [temp] of a remote sensor. *)
Definition sensor_temp (rs : remoteSensor) : reading :=
  (read_capabilities (sensor_capability rs)).1.

(** The guards of lines 213 and 223: the power mode the callback asks
    [deviceToggle] for, if any, given [temp] and the recorded
    [settings.device_SunroomHeater]. *)
Definition Decide (temp : reading) (device : option jsval) : option string :=
  if temp_gt temp 12 && strict_neq_word device "powerOff" then Some "powerOff"
  else if temp_lt temp 11 && strict_neq_word device "powerOn" then Some "powerOn"
  else None.

(** Lines 216-221 and 226-231: the journal line for the result of a
    power command. *)
Definition deviceAction (powerMode : string) (result : bool) (temp : reading) : message :=
  if String.eqb powerMode "powerOn"
  then (if result then MsgTurningOn temp else MsgFailedOn temp)
  else (if result then MsgTurningOff temp else MsgFailedOff temp).

(** Lines 192, 199 and 209: the journal lines of a sensor, of a
    thermostat with its sensors, and of a whole reply (line 188 first),
    oldest first. *)
Definition sensor_line (rs : remoteSensor) : message :=
  MsgSensor (sensor_name rs) (read_capabilities (sensor_capability rs)).1
    (read_capabilities (sensor_capability rs)).2.

Definition thermostat_lines (t : thermostat) : list message :=
  if negb (connected (thermostat_runtime t)) then [MsgNotConnected]
  else
    MsgThermostat (thermostat_name t)
      (to_celsius (Some (actualTemperature (thermostat_runtime t))))
      (actualHumidity (thermostat_runtime t))
    :: map sensor_line (remoteSensors t).

Definition poll_lines (data : thermostat_data) : list message :=
  MsgTimestamp :: flat_map thermostat_lines (thermostatList data).

(* ===================================================================== *)
(** ** Running a program *)
(* ===================================================================== *)

(** What a run leaves behind, in order. *)
Inductive event : Type :=
| Console (m : message)
| Journal (m : message)
| Saved (doc : snapshot)
| Issued (id : nat) (o : op)
| Settled (id : nat) (o : op) (r : res o)
| Exited (code : Z)
| Unhandled (e : exn).

(** A function suspended at an [await]. *)
Record task := Task {
  task_id : nat;
  task_op : op;
  task_k : res task_op → async unit }.

(** The process: the [settings] variable, the settings file ([None]
    when it is missing or is not JSON), the events so far (most recent
    first), the suspended functions, the number of requests issued, and
    the exit code once [process.exit] has run. *)
Record state := State {
  st_settings : snapshot;
  st_file : option snapshot;
  st_events : list event;
  st_pending : list task;
  st_next : nat;
  st_exit : option Z }.

(** The effects on the process. *)
Definition emit (e : event) (st : state) : state :=
  State (st_settings st) (st_file st) (e :: st_events st) (st_pending st)
        (st_next st) (st_exit st).

Definition set_settings (s : snapshot) (st : state) : state :=
  State s (st_file st) (st_events st) (st_pending st) (st_next st) (st_exit st).

Definition write_file (doc : snapshot) (st : state) : state :=
  State (st_settings st) (Some doc) (Saved doc :: st_events st) (st_pending st)
        (st_next st) (st_exit st).

Definition suspend (o : op) (k : res o → async unit) (st : state) : state :=
  State (st_settings st) (st_file st) (Issued (st_next st) o :: st_events st)
        (st_pending st ++ [Task (st_next st) o k]) (S (st_next st)) (st_exit st).

(** [process.exit(code)]: nothing suspended is ever resumed. *)
Definition halt (code : Z) (st : state) : state :=
  State (st_settings st) (st_file st) (Exited code :: st_events st) []
        (st_next st) (Some code).

(** Runs a function until it returns, throws, exits or suspends.  An
    exception that leaves the function is an unhandled rejection of its
    promise, which nobody awaits: it is recorded, and the functions
    that are suspended stay so (the properties below do not depend on
    what the runtime then does with the process). *)
Fixpoint run_sync (p : async unit) (st : state) : state :=
  match p with
  | Ret _ => st
  | Throw e => emit (Unhandled e) st
  | Exit code => halt code st
  | ConsoleLog m k => run_sync k (emit (Console m) st)
  | AppendLog m k => run_sync k (emit (Journal m) st)
  | WriteSettingsFile doc k => run_sync k (write_file doc st)
  | ReadSettingsFile k => run_sync (k (st_file st)) st
  | GetSettings k => run_sync (k (st_settings st)) st
  | SetSettings f k => run_sync k (set_settings (f (st_settings st)) st)
  | Await o k => suspend o k st
  | Spawn q k =>
      let st' := run_sync q st in
      match st_exit st' with
      | Some _ => st'
      | None => run_sync k st'
      end
  end.

(** The outside world: how the request with a given number settles. *)
Definition world : Type := nat → ∀ o : op, res o.

(** The suspended functions without the [i]-th. *)
Definition drop_pending (i : nat) (st : state) : state :=
  State (st_settings st) (st_file st) (st_events st) (delete i (st_pending st))
        (st_next st) (st_exit st).

(** One turn of the event loop: the suspended function chosen by
    [choice] is resumed with the result of its request. *)
Definition step (w : world) (st : state) (choice : nat) : state :=
  match st_pending st !! (choice mod List.length (st_pending st))%nat with
  | Some t =>
      let r := w (task_id t) (task_op t) in
      run_sync (task_k t r)
        (emit (Settled (task_id t) (task_op t) r)
           (drop_pending (choice mod List.length (st_pending st))%nat st))
  | None => st
  end.

(** The event loop, resuming suspended functions in the order given by
    the schedule. *)
Definition run (w : world) (schedule : list nat) (st : state) : state :=
  foldl (step w) st schedule.

(** A fresh process, with the settings file as found. *)
Definition boot (file : option snapshot) : state :=
  State ∅ file [] [] 0 None.

(** The events of a run, oldest first. *)
Definition history (st : state) : list event := rev (st_events st).

(** Runs a function as far as its return, when it gets there without
    suspending, throwing or exiting: the value returned and the process
    then. *)
Fixpoint run_to_return {A : Type} (p : async A) (st : state) : option (A * state) :=
  match p with
  | Ret a => Some (a, st)
  | Throw _ => None
  | Exit _ => None
  | ConsoleLog m k => run_to_return k (emit (Console m) st)
  | AppendLog m k => run_to_return k (emit (Journal m) st)
  | WriteSettingsFile doc k => run_to_return k (write_file doc st)
  | ReadSettingsFile k => run_to_return (k (st_file st)) st
  | GetSettings k => run_to_return (k (st_settings st)) st
  | SetSettings f k => run_to_return k (set_settings (f (st_settings st)) st)
  | Await _ _ => None
  | Spawn q k =>
      let st' := run_sync q st in
      match st_exit st' with
      | Some _ => None
      | None => run_to_return k st'
      end
  end.

(* ===================================================================== *)
(** ** What a run leaves behind *)
(* ===================================================================== *)

(** The documents written to the settings file, most recent first. *)
Fixpoint saved (evs : list event) : list snapshot :=
  match evs with
  | [] => []
  | Saved doc :: rest => doc :: saved rest
  | _ :: rest => saved rest
  end.

(** The lines appended to the log file, oldest first. *)
Definition journal (st : state) : list message :=
  omap (λ e, match e with Journal m => Some m | _ => None end) (history st).

(** The requests issued, oldest first. *)
Definition requests (st : state) : list op :=
  omap (λ e, match e with Issued _ o => Some o | _ => None end) (history st).


(** The power commands sent to plugs, most recent first: the device
    alias and whether the command is [powerOn]. *)
Fixpoint power_commands (evs : list event) : list (string * bool) :=
  match evs with
  | [] => []
  | Issued _ (TplinkPower alias on) :: rest => (alias, on) :: power_commands rest
  | _ :: rest => power_commands rest
  end.

(** The mail that asks the operator to register the application. *)
Definition auth_mail (cfg : config) : op :=
  SendMail [Lit "Alerter <"; Lit (SMTP_LOGIN cfg); Lit ">"]
           [Lit "!App Auth Required"] [Lit "You need to relogin to the Ecobee app"].

(** The login request of [deviceToggle]. *)
Definition tplink_login (cfg : config) : op :=
  TplinkLogin (TPLINK_USER cfg) (TPLINK_PASS cfg) (TPLINK_TERM cfg).

(** The events of lines 87-95. *)
Definition loaded_events (file : option snapshot) : list event :=
  match file with
  | Some _ => [Console MsgStarting]
  | None => [Saved ∅; Console MsgSettingsUnreadable; Console MsgStarting]
  end.

(** The lines appended to the log file and the lines printed on the
    console, most recent first. *)
Definition logged (evs : list event) : list message :=
  omap (λ e, match e with Journal m => Some m | _ => None end) evs.

Definition printed (evs : list event) : list message :=
  omap (λ e, match e with Console m => Some m | _ => None end) evs.

(** The lines printed on the console, oldest first. *)
Definition console (st : state) : list message :=
  omap (λ e, match e with Console m => Some m | _ => None end) (history st).

(** The requests issued, most recent first. *)
Definition requested (evs : list event) : list op :=
  omap (λ e, match e with Issued _ o => Some o | _ => None end) evs.

(** The requests sent to ecobee's authorization endpoints (for a PIN or
    for a token), most recent first. *)
Fixpoint credential_requests (evs : list event) : list op :=
  match evs with
  | [] => []
  | Issued _ (AxiosGetAuthorize client_id) :: rest =>
      AxiosGetAuthorize client_id :: credential_requests rest
  | Issued _ (AxiosPostToken body) :: rest => AxiosPostToken body :: credential_requests rest
  | _ :: rest => credential_requests rest
  end.

(** The mail of line 236. *)
Definition alert_mail (cfg : config) (temp : reading) : op :=
  SendMail [Lit "Alerter <"; Lit (SMTP_LOGIN cfg); Lit ">"]
           [Lit "!Sunroom Temperature "; Temp temp; Lit " degrees"]
           [Lit "Sunroom temperature "; Temp temp; Lit " degrees: action required"].

(** The first request of a run, by the credentials the settings hold. *)
Definition first_request (cfg : config) (settings : snapshot) : op :=
  if negb (truthy_prop (settings !! "authCode")) then AxiosGetAuthorize (API_KEY cfg)
  else if negb (truthy_prop (settings !! "access_token"))
  then AxiosPostToken (token_request cfg settings)
  else AxiosGetThermostat (authorization settings).

(** The events of [logWrite] for the given lines (oldest first), most
    recent first. *)
Definition log_events (lines : list message) : list event :=
  flat_map (λ m, [Console m; Journal m]) (rev lines).

(** Lines 212-236: the request at which the callback of a sensor first
    suspends, if any, given the settings it finds: the login of
    [deviceToggle] when there is a decision, otherwise the alert mail
    when the reading is below 5 degrees. *)
Definition sensor_request (cfg : config) (settings : snapshot) (rs : remoteSensor) : list op :=
  if String.eqb (sensor_name rs) "Sunroom" then
    match Decide (sensor_temp rs) (settings !! "device_SunroomHeater") with
    | Some _ => [tplink_login cfg]
    | None => if temp_lt (sensor_temp rs) 5 then [alert_mail cfg (sensor_temp rs)] else []
    end
  else [].

(** The same for the sensors of a thermostat (none when it is not
    connected) and for a whole reply, in the order of the reply. *)
Definition thermostat_requests (cfg : config) (settings : snapshot) (t : thermostat) : list op :=
  if negb (connected (thermostat_runtime t)) then []
  else flat_map (sensor_request cfg settings) (remoteSensors t).

Definition poll_requests (cfg : config) (settings : snapshot) (data : thermostat_data) : list op :=
  flat_map (thermostat_requests cfg settings) (thermostatList data).

(* ===================================================================== *)
(** ** Invariants of all schedules *)
(* ===================================================================== *)

(** What a function sees of the process when it runs: the settings,
    the file, the events and the number of the next request. *)
Record view := View {
  v_settings : snapshot;
  v_file : option snapshot;
  v_events : list event;
  v_next : nat }.

Definition view_of (st : state) : view :=
  View (st_settings st) (st_file st) (st_events st) (st_next st).

Definition v_emit (e : event) (v : view) : view :=
  View (v_settings v) (v_file v) (e :: v_events v) (v_next v).

Definition v_set (s : snapshot) (v : view) : view :=
  View s (v_file v) (v_events v) (v_next v).

Definition v_write (doc : snapshot) (v : view) : view :=
  View (v_settings v) (Some doc) (Saved doc :: v_events v) (v_next v).

Definition v_issue (o : op) (v : view) : view :=
  View (v_settings v) (v_file v) (Issued (v_next v) o :: v_events v) (S (v_next v)).

(** [wp w I p Φ Ψ v]: run from [v], the program [p] keeps the invariant
    [I] in the world [w].  [Φ] is what must hold when [p] returns a
    value, [Ψ] what must hold when control goes back to the caller (the
    function suspended, or threw); a function resumed later starts from
    any view that satisfies [I], and its caller is then the event loop,
    which expects [I] again. *)
Fixpoint wp {A : Type} (w : world) (I : view → Prop) (p : async A)
    (Φ : (view → Prop) → A → view → Prop) (Ψ : view → Prop) (v : view) : Prop :=
  match p with
  | Ret a => Φ Ψ a v
  | Throw e => Ψ (v_emit (Unhandled e) v)
  | Exit code => I (v_emit (Exited code) v)
  | ConsoleLog m k => wp w I k Φ Ψ (v_emit (Console m) v)
  | AppendLog m k => wp w I k Φ Ψ (v_emit (Journal m) v)
  | WriteSettingsFile doc k => wp w I k Φ Ψ (v_write doc v)
  | ReadSettingsFile k => wp w I (k (v_file v)) Φ Ψ v
  | GetSettings k => wp w I (k (v_settings v)) Φ Ψ v
  | SetSettings f k => wp w I k Φ Ψ (v_set (f (v_settings v)) v)
  | Await o k =>
      Ψ (v_issue o v) ∧
      ∀ v', I v' →
        wp w I (k (w (v_next v) o)) Φ I
          (v_emit (Settled (v_next v) o (w (v_next v) o)) v')
  | Spawn q k =>
      wp w I q (λ Ψ' _ v', Ψ' v') (λ v', wp w I k Φ Ψ v') v
  end.

(** The end of a function's body hands control back to its caller. *)
Definition returns : (view → Prop) → unit → view → Prop := λ Ψ _ v, Ψ v.

(** A suspended function that keeps [I] when it is resumed. *)
Definition task_safe (w : world) (I : view → Prop) (t : task) : Prop :=
  ∀ v, I v →
    wp w I (task_k t (w (task_id t) (task_op t))) returns I
      (v_emit (Settled (task_id t) (task_op t) (w (task_id t) (task_op t))) v).

(** The invariant of the process. *)
Definition inv (w : world) (I : view → Prop) (st : state) : Prop :=
  I (view_of st) ∧ Forall (task_safe w I) (st_pending st) ∧
  (st_exit st ≠ None → st_pending st = []).

(** A program that keeps [I], whatever follows it. *)
Definition preserves (w : world) (I : view → Prop) {A : Type} (p : async A) : Prop :=
  ∀ (Φ : (view → Prop) → A → view → Prop) (Ψ : view → Prop) v,
    (∀ (Ψ' : view → Prop) a v', (∀ v, I v → Ψ' v) → I v' → Φ Ψ' a v') →
    (∀ v, I v → Ψ v) →
    I v → wp w I p Φ Ψ v.






(** What the script may send and how it may exit: power commands go
    to [SunroomHeater]; a mail is the registration notice or an alert
    for a reading below 5 degrees; the exit code is 1. *)
Definition expected (cfg : config) (e : event) : Prop :=
  match e with
  | Issued _ (TplinkPower alias _) => alias = "SunroomHeater"
  | Issued _ (SendMail recipient subject text) =>
      SendMail recipient subject text = auth_mail cfg ∨
      ∃ temp, temp_lt temp 5 = true ∧ SendMail recipient subject text = alert_mail cfg temp
  | Exited code => code = 1
  | _ => True
  end.

(** The invariant of the events: every line of the log file was also
    printed, in the same order; commands, mails and exits are the
    expected ones; at most [limit] credential requests were sent. *)
Definition events_inv (cfg : config) (limit : nat) (evs : list event) : Prop :=
  sublist (logged evs) (printed evs) ∧
  Forall (expected cfg) evs ∧
  (List.length (credential_requests evs) ≤ limit)%nat.

(** The invariant of the script: whenever it gives control back, the
    file holds the settings as they are in memory. *)
Definition script_inv (cfg : config) (limit : nat) (v : view) : Prop :=
  v_file v = Some (v_settings v) ∧ events_inv cfg limit (v_events v).

(** An exit is recorded among the events. *)
Definition exit_logged (st : state) : Prop :=
  ∀ code, st_exit st = Some code → In (Exited code) (st_events st).

(** From [st] to [st'] the script has issued exactly [requests], in
    that order, and is suspended at each of them; it has not exited and
    has not changed the settings. *)
Definition advances (requests : list op) (st st' : state) : Prop :=
  st_settings st' = st_settings st ∧ st_exit st' = None ∧
  requested (st_events st') = rev requests ++ requested (st_events st) ∧
  map task_op (st_pending st') = map task_op (st_pending st) ++ requests.

(* ===================================================================== *)
(** ** Sample runs *)
(* ===================================================================== *)

(** A configuration, settings files, payloads and worlds to run the
    script on. *)
Definition cfg0 : config :=
  Config "client-key" "alerts@example.org" "smtp-pass" "plug-user" "plug-pass" "term-1".

Definition world_of (authorize token : axios_result snapshot)
    (poll : axios_result thermostat_data) (relay : settled Z) (mail : settled unit) : world :=
  λ _ o,
    match o return res o with
    | AxiosGetAuthorize _ => authorize
    | AxiosPostToken _ => token
    | AxiosGetThermostat _ => poll
    | TplinkLogin _ _ _ => Fulfilled tt
    | TplinkGetDeviceList => Fulfilled tt
    | TplinkPower _ _ => relay
    | SendMail _ _ _ => mail
    end.

Definition pin_reply : axios_result snapshot :=
  Response {[ "ecobeePin" := JStr "ab12"; "code" := JStr "CODE1" ]}.

Definition token_reply : axios_result snapshot :=
  Response {[ "access_token" := JStr "AT2"; "token_type" := JStr "Bearer";
              "refresh_token" := JStr "RT2" ]}.

Definition sunroom (value : string) : remoteSensor :=
  RemoteSensor "Sunroom" [Capability "temperature" value; Capability "occupancy" "false"].

Definition poll_reply (value : string) : axios_result thermostat_data :=
  Response (ThermostatData (ApiStatus 0 "")
              [Thermostat "Home" (Runtime true 720 40) [sunroom value]]).

Definition expired_reply : axios_result thermostat_data :=
  Response (ThermostatData (ApiStatus 14 "Authentication token has expired") []).

Definition authorized (device : string) : snapshot :=
  {[ "authCode" := JStr "CODE1"; "access_token" := JStr "AT1"; "token_type" := JStr "Bearer";
     "refresh_token" := JStr "RT1"; "device_SunroomHeater" := JStr device ]}.

Definition registered : snapshot :=
  {[ "authCode" := JStr "CODE1"; "refresh_token" := JStr "RT1" ]}.

Definition world_ok (value : string) : world :=
  world_of pin_reply token_reply (poll_reply value) (Fulfilled 0) (Fulfilled tt).

Definition world_mail_down (value : string) : world :=
  world_of pin_reply token_reply (poll_reply value) (Fulfilled 0) (Rejected "ECONNREFUSED").

Definition world_relay (value : string) (relay : settled Z) : world :=
  world_of pin_reply token_reply (poll_reply value) relay (Fulfilled tt).

Definition world_expired : world :=
  world_of pin_reply token_reply expired_reply (Fulfilled 0) (Fulfilled tt).

Definition world_token_error : world :=
  world_of pin_reply (Response {[ "error" := JStr "authorization_expired" ]})
    (poll_reply "536") (Fulfilled 0) (Fulfilled tt).

Definition world_token_status : world :=
  world_of pin_reply
    (AxiosError "Request failed with status code 400"
       (Some {[ "error" := JStr "authorization_expired" ]}))
    (poll_reply "536") (Fulfilled 0) (Fulfilled tt).

Definition world_poll_status : world :=
  world_of pin_reply token_reply
    (AxiosError "Request failed with status code 500"
       (Some (ThermostatData (ApiStatus 14 "Authentication token has expired") [])))
    (Fulfilled 0) (Fulfilled tt).



Definition world_no_response : world :=
  world_of pin_reply token_reply (AxiosError "timeout of 0ms exceeded" None)
    (Fulfilled 0) (Fulfilled tt).

Definition device_after (w : world) (device : string) : option jsval :=
  st_settings (run w [0; 0; 0; 0; 0; 0]%nat
                 (run_sync (main cfg0) (boot (Some (authorized device)))))
    !! "device_SunroomHeater".

Definition file_device_after (w : world) (device : string) : option jsval :=
  st_file (run w [0; 0; 0; 0; 0; 0]%nat
             (run_sync (main cfg0) (boot (Some (authorized device)))))
    ≫= (.!! "device_SunroomHeater").

(* ===================================================================== *)
(** ** Proof automation *)
(* ===================================================================== *)

(** Evaluates [run_sync] on a program whose head is known. *)
Ltac script :=
  repeat progress
    (unfold suspend, emit, halt, write_file, set_settings, drop_pending,
            console_log, get_settings, update_settings, process_exit,
            logWrite, settingsSave;
     cbn [run_sync bind try_catch
          st_settings st_file st_events st_pending st_next st_exit
          task_id task_op task_k app axios_json axios_thermostat tplink_call
          error_message error_response fmap option_fmap option_map saved]).

(** Evaluates [wp] on a program whose head is known. *)
Ltac wp_script :=
  repeat progress
    (unfold console_log, get_settings, update_settings, process_exit, logWrite, settingsSave,
            v_emit, v_issue, v_write, v_set;
     cbn [wp bind try_catch axios_json axios_thermostat tplink_call
          error_message error_response fmap option_fmap option_map
          v_events v_settings v_file v_next]).

(** Walks through a program, with a case for every result of a request
    and every test; [solver] proves the invariant of the views reached. *)
Ltac wp_go HΦ HΨ solver :=
  repeat
    (wp_script;
     match goal with
     | |- _ ∧ _ => split
     | |- ∀ _, _ => intro
     | |- context [tplink_call (?w ?i ?o)] => destruct (w i o) as [?|?] eqn:?
     | |- context [axios_json (?w ?i ?o)] => destruct (w i o) as [?|? ?] eqn:?
     | |- context [axios_thermostat (?w ?i ?o)] => destruct (w i o) as [?|? ?] eqn:?
     | |- context [match ?w ?i ?o with _ => _ end] =>
         lazymatch type of w with world => destruct (w i o) eqn:? end
     | |- context [if ?b then _ else _] =>
         lazymatch b with
         | Z.eqb ?z ?c => destruct (Z.eqb_spec z c); [try subst z|]
         | _ => destruct b eqn:?
         end
     | |- context [match from_option ?f ?d ?x with Some _ => _ | None => _ end] =>
         destruct (from_option f d x) as [[]|] eqn:?
     | |- _ => solve [solver]
     | |- _ => apply HΦ; [first [exact HΨ | exact (λ _ H, H)]|]
     | |- _ => apply HΨ
     end).

(* ===================================================================== *)
(** ** Properties: values *)
(* ===================================================================== *)

Example to_celsius_536 : to_celsius (js_Number "536") = Tenths 120.
Proof. reflexivity. Qed.

Example to_celsius_unknown : to_celsius (js_Number "unknown") = NaN.
Proof. reflexivity. Qed.

Example to_celsius_negative : to_celsius (js_Number "-40") = Tenths (-200).
Proof. reflexivity. Qed.

(** [!==] with a string constant. *)
Lemma strict_neq_word_spec (v : option jsval) (word : string) :
  strict_neq_word v word = true ↔ v ≠ Some (JStr word).
Proof.
  destruct v as [[| | |s| |]|]; cbn; try (split; [intros _ ?; discriminate|done]).
  destruct (String.eqb_spec s word) as [->|Hne]; cbn.
  - split; [discriminate | intros H; by destruct H].
  - split; [intros _ [= ->]; by apply Hne | done].
Qed.

(* ===================================================================== *)
(** ** Properties: the event loop *)
(* ===================================================================== *)

(** With one suspended function, every choice resumes it. *)
Lemma step_single w s f ev t n choice :
  step w (State s f ev [t] n None) choice =
  run_sync (task_k t (w (task_id t) (task_op t)))
    (State s f (Settled (task_id t) (task_op t) (w (task_id t) (task_op t)) :: ev) [] n None).
Proof.
  unfold step. cbn [st_pending List.length].
  rewrite Nat.mod_1_r. reflexivity.
Qed.

(** Choosing the function that suspended last. *)
Lemma step_last w s f ev pend t n :
  step w (State s f ev (pend ++ [t]) n None) (List.length pend) =
  run_sync (task_k t (w (task_id t) (task_op t)))
    (State s f (Settled (task_id t) (task_op t) (w (task_id t) (task_op t)) :: ev) pend n None).
Proof.
  unfold step. cbn [st_pending].
  assert (E : (List.length pend mod List.length (pend ++ [t]))%nat = List.length pend).
  { apply Nat.mod_small. rewrite length_app. cbn. lia. }
  rewrite E, (list_lookup_middle pend [] t (List.length pend) eq_refl).
  unfold emit, drop_pending. cbn [st_settings st_file st_events st_pending st_next st_exit].
  by rewrite delete_middle, app_nil_r.
Qed.

Lemma run_nil w st : run w [] st = st.
Proof. reflexivity. Qed.

Lemma run_cons w c schedule st : run w (c :: schedule) st = run w schedule (step w st c).
Proof. reflexivity. Qed.

Lemma step_idle w s f ev n x c : step w (State s f ev [] n x) c = State s f ev [] n x.
Proof. reflexivity. Qed.

Lemma run_idle w schedule s f ev n x :
  run w schedule (State s f ev [] n x) = State s f ev [] n x.
Proof. induction schedule as [|c l IH]; [done|]. by rewrite run_cons, step_idle. Qed.

(* ===================================================================== *)
(** ** Properties: registration with a PIN *)
(* ===================================================================== *)

(** Lines 87-95 run without suspending: the settings are the document
    of the file, or empty (and the file rewritten as an empty document)
    when it cannot be read. *)
Lemma main_loaded (cfg : config) (file : option snapshot) :
  run_sync (main cfg) (boot file) =
  run_sync (add_app cfg >> update_token cfg >> read_sensors cfg)
    (State (default ∅ file) (Some (default ∅ file)) (loaded_events file) [] 0 None).
Proof.
  unfold main, load_settings, boot. script.
  destruct file as [s|]; script; reflexivity.
Qed.




(* ===================================================================== *)
(** ** Properties: the token exchange *)
(* ===================================================================== *)

(** With an [authCode] and no access token in the file, the script
    runs up to the token request without suspending. *)
Lemma main_token_request (cfg : config) (s : snapshot) :
  truthy_prop (s !! "authCode") = true →
  truthy_prop (s !! "access_token") = false →
  run_sync (main cfg) (boot (Some s)) =
  State s (Some s)
    [Issued 0 (AxiosPostToken (token_request cfg s)); Console MsgUpdatingToken;
     Console MsgStarting]
    [Task 0 (AxiosPostToken (token_request cfg s))
       (λ r, (let* data := axios_json r in on_token data) >> read_sensors cfg)]
    1 None.
Proof.
  intros Hauth Htok. rewrite main_loaded. cbn [default from_option loaded_events].
  unfold id, add_app, update_token. script. rewrite Hauth. cbn [negb]. script.
  rewrite Htok. cbn [negb]. script.
  reflexivity.
Qed.

(** Lines 129-140, for an error that arrives in a fulfilled response.
    With an [authCode] and no access token in the file, when the token
    request is fulfilled with a truthy [error]: if the error is
    [authorization_expired] the run deletes [authCode]; otherwise it
    deletes [access_token] only, [authCode], [refresh_token] and every
    other key staying as they were.  In both cases it writes the
    settings to the file, once, and exits with code 1. *)
Lemma token_error_in_response (cfg : config) (w : world) (s : snapshot) choice data err :
  truthy_prop (s !! "authCode") = true →
  truthy_prop (s !! "access_token") = false →
  w 0%nat (AxiosPostToken (token_request cfg s)) = Response data →
  data !! "error" = Some err →
  truthy err = true →
  let st := step w (run_sync (main cfg) (boot (Some s))) choice in
  (loose_eq_word err "authorization_expired" = Some true →
     st_exit st = Some 1 ∧ st_pending st = [] ∧
     st_settings st = delete "authCode" s ∧
     st_file st = Some (delete "authCode" s) ∧
     saved (st_events st) = [delete "authCode" s] ∧
     delete "authCode" s !! "authCode" = None) ∧
  (loose_eq_word err "authorization_expired" = Some false →
     st_exit st = Some 1 ∧ st_pending st = [] ∧
     st_settings st = delete "access_token" s ∧
     st_file st = Some (delete "access_token" s) ∧
     saved (st_events st) = [delete "access_token" s] ∧
     delete "access_token" s !! "authCode" = s !! "authCode" ∧
     delete "access_token" s !! "refresh_token" = s !! "refresh_token" ∧
     ∀ key, key ≠ "access_token" → delete "access_token" s !! key = s !! key).
Proof.
  intros Hauth Htok Hw Herr Htruthy st. subst st.
  rewrite (main_token_request _ _ Hauth Htok), step_single.
  cbn [task_id task_op task_k]. rewrite Hw. unfold on_token. script.
  rewrite Herr. cbn [truthy_prop from_option]. rewrite Htruthy. script.
  split; intros ->; script.
  - repeat split. apply lookup_delete_eq.
  - repeat split; try (by apply lookup_delete_ne).
    intros key Hk. by apply lookup_delete_ne.
Qed.

(** The same error, as the provider delivers it: in a response that is
    fulfilled, and in a response with an error status, with which the
    request is rejected. *)
Example token_error_fulfilled :
  let st := step world_token_error (run_sync (main cfg0) (boot (Some registered))) 0 in
  st_exit st = Some 1 ∧ st_file st = Some (delete "authCode" registered).
Proof. split; vm_compute; reflexivity. Qed.

(** C3 (the code misses the claim).  The token request is awaited
    outside any [try] (line 124), while the thermostat request of lines
    157-171 is inside one and reads [error.response].  When the
    provider reports [authorization_expired] with an error status, the
    request is rejected and the rejection leaves the script: the error
    branch of lines 129-140 is not reached, nothing is journalled,
    [authCode] is still in the settings, the file is not written and
    [process.exit] is not called.  The thermostat request handles the
    same kind of answer (status code 14 with an error status): it
    clears the access token, writes the file and exits. *)
Theorem token_error_status_unhandled :
  let st := run world_token_status [0; 0; 0]%nat
              (run_sync (main cfg0) (boot (Some registered))) in
  let poll := run world_poll_status [0; 0; 0]%nat
                (run_sync (main cfg0) (boot (Some (authorized "powerOn")))) in
  st_settings st !! "authCode" = Some (JStr "CODE1") ∧
  st_settings st = registered ∧ st_file st = Some registered ∧
  saved (st_events st) = [] ∧ journal st = [] ∧
  st_exit st = None ∧ st_pending st = [] ∧
  head (st_events st) =
    Some (Unhandled (AxiosFailure "Request failed with status code 400"
                       (Some (JsonData {[ "error" := JStr "authorization_expired" ]})))) ∧
  st_exit poll = Some 1 ∧
  st_file poll = Some (delete "access_token" (authorized "powerOn")).
Proof. cbv zeta. repeat split; vm_compute; reflexivity. Qed.

(* ===================================================================== *)
(** ** Properties: the thermostat request *)
(* ===================================================================== *)

(** The thermostat request: a failed request that carries the
    provider's response is handled like a successful one. *)
Lemma read_sensors_replied (cfg : config) (w : world) (s : snapshot) f ev n choice :
  step w (run_sync (read_sensors cfg) (State s f ev [] n None)) choice =
  let o := AxiosGetThermostat (authorization s) in
  let ev' := Settled n o (w n o) :: Issued n o :: ev in
  match w n o with
  | Response data =>
      run_sync (on_response cfg (Some (ThermostatReply data))) (State s f ev' [] (S n) None)
  | AxiosError m response =>
      run_sync (on_response cfg (ThermostatReply <$> response))
        (State s f (Console (MsgLoadFailed m) :: ev') [] (S n) None)
  end.
Proof.
  unfold read_sensors. script. rewrite step_single. script.
  destruct (w n (AxiosGetThermostat (authorization s))); script; reflexivity.
Qed.

(** A reply with a non-zero status code. *)
Lemma on_response_failed (cfg : config) data (s : snapshot) f ev pend n :
  status_code (status data) ≠ 0 →
  run_sync (on_response cfg (Some (ThermostatReply data))) (State s f ev pend n None) =
  let line := MsgApiError (status_message (status data)) (status_code (status data) =? 14) in
  if status_code (status data) =? 14
  then State (delete "access_token" s) (Some (delete "access_token" s))
         (Exited 1 :: Saved (delete "access_token" s) :: Console line :: Journal line :: ev)
         [] n (Some 1)
  else State s f (Exited 1 :: Console line :: Journal line :: ev) [] n (Some 1).
Proof.
  intros Hcode. unfold on_response.
  destruct (Z.eqb_spec (status_code (status data)) 0) as [|_]; [done|].
  cbn [negb]. script.
  destruct (status_code (status data) =? 14); script; reflexivity.
Qed.

(** C2.  When the thermostat reply (the response of the request, or the
    response attached to its failure) carries status code 14, the run
    deletes [access_token] from the settings, writes them to the file
    and exits with code 1; every other key is kept.  With any other
    non-zero code it exits with code 1 and the settings and the file
    stay as they were: nothing is written. *)
Theorem poll_status_code (cfg : config) (w : world) (s : snapshot) f ev n choice data :
  (w n (AxiosGetThermostat (authorization s)) = Response data ∨
   ∃ m, w n (AxiosGetThermostat (authorization s)) = AxiosError m (Some data)) →
  status_code (status data) ≠ 0 →
  let st := step w (run_sync (read_sensors cfg) (State s f ev [] n None)) choice in
  st_exit st = Some 1 ∧
  (status_code (status data) = 14 →
     st_settings st = delete "access_token" s ∧
     st_file st = Some (delete "access_token" s) ∧
     saved (st_events st) = delete "access_token" s :: saved ev ∧
     delete "access_token" s !! "access_token" = None ∧
     ∀ key, key ≠ "access_token" → delete "access_token" s !! key = s !! key) ∧
  (status_code (status data) ≠ 14 →
     st_settings st = s ∧ st_file st = f ∧ saved (st_events st) = saved ev).
Proof.
  intros Hw Hcode st. subst st.
  rewrite read_sensors_replied. cbv zeta.
  destruct Hw as [Hw | [m Hw]]; rewrite Hw; cbn [fmap option_fmap option_map];
    rewrite (on_response_failed _ _ _ _ _ _ _ Hcode); cbv zeta;
    (destruct (Z.eqb_spec (status_code (status data)) 14) as [E|E];
     [ split; [done|]; split; [intros _|done];
       cbn [st_settings st_file st_events saved];
       repeat split; [apply lookup_delete_eq | intros key Hk; by apply lookup_delete_ne]
     | split; [done|]; split; [done|]; intros _; done ]).
Qed.

(** An expired access token. *)
Lemma poll_status_code_witness :
  let st := step world_expired
              (run_sync (read_sensors cfg0)
                 (State (authorized "powerOn") (Some (authorized "powerOn")) [] [] 0 None)) 0 in
  st_exit st = Some 1 ∧ st_file st = Some (delete "access_token" (authorized "powerOn")).
Proof.
  destruct (poll_status_code cfg0 world_expired (authorized "powerOn")
              (Some (authorized "powerOn")) [] 0 0
              (ThermostatData (ApiStatus 14 "Authentication token has expired") [])
              (or_introl eq_refl)) as (Hexit & Hexpired & _).
  - cbn. discriminate.
  - split; [exact Hexit|]. apply Hexpired. reflexivity.
Defined.

(** C10.  When the thermostat request fails and the error carries no
    response, reading [response.data] throws: the run ends with an
    unhandled [TypeError], without a journal line, without
    [process.exit] and without touching the settings or the file.  When
    the error carries a response, the run goes on exactly as for the
    response of a successful request. *)
Theorem poll_without_response (cfg : config) (w : world) (s : snapshot) f ev n choice :
  let o := AxiosGetThermostat (authorization s) in
  (∀ m, w n o = AxiosError m None →
     step w (run_sync (read_sensors cfg) (State s f ev [] n None)) choice =
     State s f
       (Unhandled TypeError :: Console (MsgLoadFailed m) :: Settled n o (AxiosError m None)
          :: Issued n o :: ev)
       [] (S n) None) ∧
  (∀ m data, w n o = AxiosError m (Some data) →
     step w (run_sync (read_sensors cfg) (State s f ev [] n None)) choice =
     run_sync (on_response cfg (Some (ThermostatReply data)))
       (State s f
          (Console (MsgLoadFailed m) :: Settled n o (AxiosError m (Some data))
             :: Issued n o :: ev)
          [] (S n) None)).
Proof.
  intros o. subst o. split.
  - intros m Hw. rewrite read_sensors_replied. cbv zeta. rewrite Hw. reflexivity.
  - intros m data Hw. rewrite read_sensors_replied. cbv zeta. rewrite Hw. reflexivity.
Qed.

(** A request that times out. *)
Lemma poll_without_response_witness :
  let st := step world_no_response
              (run_sync (read_sensors cfg0)
                 (State (authorized "powerOn") (Some (authorized "powerOn")) [] [] 0 None)) 0 in
  st_exit st = None ∧ head (st_events st) = Some (Unhandled TypeError) ∧
  st_file st = Some (authorized "powerOn").
Proof.
  cbv zeta.
  rewrite (proj1 (poll_without_response cfg0 world_no_response (authorized "powerOn")
                    (Some (authorized "powerOn")) [] 0 0) "timeout of 0ms exceeded" eq_refl).
  repeat split.
Defined.

(* ===================================================================== *)
(** ** Properties: mail *)
(* ===================================================================== *)

(** C8 (as amended).  For every caller [rest] awaiting [mailSend],
    whatever else is suspended: when the mail is sent the caller goes
    on; when it fails the failure is printed on the console, the
    promise is rejected and nothing catches it, so the caller's
    remaining statements never run.  The settings, the file and the
    other suspended functions are as they were. *)
Theorem mail_failure_abandons_caller (cfg : config) (w : world)
    (subject text : list fragment) (rest : unit → async unit) (s : snapshot) f ev pend n :
  let mail := SendMail [Lit "Alerter <"; Lit (SMTP_LOGIN cfg); Lit ">"] subject text in
  let st := step w (run_sync (let* r := mailSend cfg subject text in rest r)
                      (State s f ev pend n None)) (List.length pend) in
  let ev' := Settled n mail (w n mail) :: Issued n mail :: ev in
  match w n mail with
  | Fulfilled _ =>
      st = run_sync (rest tt) (State s f (Console MsgMailSent :: ev') pend (S n) None)
  | Rejected e =>
      st = State s f
             (Unhandled MailRejected :: Console MsgMailSent :: Console (MsgMailError e) :: ev')
             pend (S n) None
  end.
Proof.
  intros mail st ev'. subst st ev' mail. unfold mailSend. script.
  rewrite step_last. script.
  destruct (w n (SendMail _ _ _)) as [[]|e]; script; reflexivity.
Qed.

(** C8, the claim as first stated fails: with the Sunroom at 4.4
    degrees and the heater recorded on, the journal line that follows
    the alert is written when the mail is sent and is missing when the
    mail fails; and on a first run whose registration mail fails,
    [process.exit(1)] is never reached. *)
Lemma mail_failure_skips_the_rest :
  let failed := run (world_mail_down "400") [0; 0; 0; 0]%nat
                  (run_sync (main cfg0) (boot (Some (authorized "powerOn")))) in
  let sent := run (world_ok "400") [0; 0; 0; 0]%nat
                (run_sync (main cfg0) (boot (Some (authorized "powerOn")))) in
  let pin := run (world_mail_down "400") [0; 0; 0; 0]%nat (run_sync (main cfg0) (boot None)) in
  journal sent = [MsgTimestamp; MsgThermostat "Home" (Tenths 222) 40;
                  MsgSensor "Sunroom" (Tenths 44) false; MsgSunroomProblem] ∧
  journal failed = [MsgTimestamp; MsgThermostat "Home" (Tenths 222) 40;
                    MsgSensor "Sunroom" (Tenths 44) false] ∧
  head (st_events failed) = Some (Unhandled MailRejected) ∧
  st_exit pin = None ∧
  head (st_events pin) = Some (Unhandled MailRejected).
Proof. cbv zeta. repeat split; vm_compute; reflexivity. Qed.

(* ===================================================================== *)
(** ** Properties: the Sunroom rule *)
(* ===================================================================== *)

(** The Sunroom callback, by the decision it takes. *)
Lemma on_remoteSensor_decided (cfg : config) (w : world) (rs : remoteSensor)
    (s : snapshot) f ev n c1 c2 :
  sensor_name rs = "Sunroom" →
  w n (tplink_login cfg) = Fulfilled tt →
  w (S n) TplinkGetDeviceList = Fulfilled tt →
  let st := run w [c1; c2] (run_sync (on_remoteSensor cfg rs) (State s f ev [] n None)) in
  match Decide (sensor_temp rs) (s !! "device_SunroomHeater") with
  | Some powerMode =>
      power_commands (st_events st) =
        ("SunroomHeater", String.eqb powerMode "powerOn") :: power_commands ev ∧
      st_settings st = s
  | None =>
      power_commands (st_events st) = power_commands ev ∧ st_settings st = s ∧
      st_file st = Some s
  end.
Proof.
  intros Hname Hlogin Hlist st. subst st.
  unfold on_remoteSensor, deviceToggle, mailSend, Decide, sensor_temp, tplink_login in *.
  rewrite Hname. cbn [String.eqb Ascii.eqb Bool.eqb]. script.
  destruct (temp_gt _ 12 && _); [|destruct (temp_lt _ 11 && _)].
  - script. rewrite !run_cons, run_nil, step_single. script. rewrite Hlogin. script.
    rewrite step_single. script. rewrite Hlist. script. done.
  - script. rewrite !run_cons, run_nil, step_single. script. rewrite Hlogin. script.
    rewrite step_single. script. rewrite Hlist. script. done.
  - script. destruct (temp_lt _ 5); script.
    + rewrite !run_cons, run_nil, step_single. script.
      destruct (w n (SendMail _ _ _)) as [[]|e]; script; rewrite step_idle; done.
    + rewrite run_idle. done.
Qed.

(** Without a decision the callback sends no command, under every
    schedule: it writes the settings as they are. *)
Lemma on_remoteSensor_no_action (cfg : config) (w : world) (schedule : list nat)
    (rs : remoteSensor) (s : snapshot) f ev n :
  sensor_name rs = "Sunroom" →
  Decide (sensor_temp rs) (s !! "device_SunroomHeater") = None →
  let st := run w schedule (run_sync (on_remoteSensor cfg rs) (State s f ev [] n None)) in
  power_commands (st_events st) = power_commands ev ∧
  st_settings st = s ∧ st_file st = Some s ∧ saved (st_events st) = s :: saved ev.
Proof.
  intros Hname Hdecide st. subst st.
  unfold on_remoteSensor, mailSend, Decide, sensor_temp in *.
  rewrite Hname. cbn [String.eqb Ascii.eqb Bool.eqb]. script.
  destruct (temp_gt _ 12 && _); [done|]. destruct (temp_lt _ 11 && _); [done|].
  script. destruct (temp_lt _ 5); script.
  - destruct schedule as [|c schedule]; [done|].
    rewrite run_cons, step_single. script.
    destruct (w n (SendMail _ _ _)) as [[]|e]; script; rewrite run_idle; done.
  - rewrite run_idle. done.
Qed.

(** C1 (as amended).  The comparisons are strict.  For the Sunroom
    sensor, once the plug's login and device list have answered: a
    reading above 12 degrees with a recorded state other than
    ['powerOff'] sends [powerOff] to [SunroomHeater]; a reading below 11
    degrees with a recorded state other than ['powerOn'] sends
    [powerOn]; a reading of exactly 12.0 or 11.0 degrees sends no
    command, whatever the recorded state. *)
Theorem strict_thresholds (cfg : config) (w : world) (rs : remoteSensor)
    (s : snapshot) f ev n c1 c2 :
  sensor_name rs = "Sunroom" →
  w n (tplink_login cfg) = Fulfilled tt →
  w (S n) TplinkGetDeviceList = Fulfilled tt →
  let temp := sensor_temp rs in
  let device := s !! "device_SunroomHeater" in
  let st := run w [c1; c2] (run_sync (on_remoteSensor cfg rs) (State s f ev [] n None)) in
  (temp_gt temp 12 = true → device ≠ Some (JStr "powerOff") →
     power_commands (st_events st) = ("SunroomHeater", false) :: power_commands ev) ∧
  (temp_lt temp 11 = true → device ≠ Some (JStr "powerOn") →
     power_commands (st_events st) = ("SunroomHeater", true) :: power_commands ev) ∧
  (temp = Tenths 120 ∨ temp = Tenths 110 →
     power_commands (st_events st) = power_commands ev).
Proof.
  intros Hname Hlogin Hlist temp device st.
  pose proof (on_remoteSensor_decided cfg w rs s f ev n c1 c2 Hname Hlogin Hlist) as H.
  cbv zeta in H. fold temp device st in H. unfold Decide in H.
  split; [|split].
  - intros Hgt Hdev. apply strict_neq_word_spec in Hdev.
    rewrite Hgt, Hdev in H. apply H.
  - intros Hlt Hdev. apply strict_neq_word_spec in Hdev.
    assert (Hgt : temp_gt temp 12 = false).
    { destruct temp as [d|]; cbn in *; [|done]. lia. }
    rewrite Hgt, Hlt, Hdev in H. apply H.
  - intros [E|E]; rewrite E in H; apply H.
Qed.

(** 13.3 degrees with the heater recorded on. *)
Lemma strict_thresholds_witness :
  power_commands
    (st_events (run (world_ok "560") [0; 0]%nat
                  (run_sync (on_remoteSensor cfg0 (sunroom "560"))
                     (State (authorized "powerOn") None [] [] 0 None)))) =
  [("SunroomHeater", false)].
Proof.
  apply (proj1 (strict_thresholds cfg0 (world_ok "560") (sunroom "560")
                  (authorized "powerOn") None [] 0 0 0 eq_refl eq_refl eq_refl)).
  - vm_compute. reflexivity.
  - intros H. vm_compute in H. discriminate H.
Defined.

(** C1, the claim as first stated fails: a reading of exactly 12.0
    degrees with the heater recorded on, and a reading of exactly 11.0
    degrees with the heater recorded off, send no command and leave the
    recorded state as it was. *)
Lemma threshold_reading_no_command :
  let at_off := run (world_ok "536") [0; 0; 0; 0]%nat
                  (run_sync (main cfg0) (boot (Some (authorized "powerOn")))) in
  let at_on := run (world_ok "518") [0; 0; 0; 0]%nat
                 (run_sync (main cfg0) (boot (Some (authorized "powerOff")))) in
  sensor_temp (sunroom "536") = Tenths 120 ∧
  authorized "powerOn" !! "device_SunroomHeater" ≠ Some (JStr "powerOff") ∧
  power_commands (st_events at_off) = [] ∧
  st_settings at_off !! "device_SunroomHeater" = Some (JStr "powerOn") ∧
  sensor_temp (sunroom "518") = Tenths 110 ∧
  authorized "powerOff" !! "device_SunroomHeater" ≠ Some (JStr "powerOn") ∧
  power_commands (st_events at_on) = [] ∧
  st_settings at_on !! "device_SunroomHeater" = Some (JStr "powerOff").
Proof.
  cbv zeta. repeat split; try (vm_compute; reflexivity).
  - intros H. vm_compute in H. discriminate H.
  - intros H. vm_compute in H. discriminate H.
Qed.

(** C6.  For the Sunroom sensor, when the reading is strictly between
    11 and 12 degrees, or is at least 12 degrees with the heater
    recorded off, or is at most 11 degrees with the heater recorded on:
    there is no decision, and the callback, under every schedule, sends
    no power command and leaves the settings as they were (it writes
    them to the file unchanged). *)
Theorem no_action_when_settled (cfg : config) (w : world) (schedule : list nat)
    (rs : remoteSensor) (s : snapshot) f ev n d :
  sensor_name rs = "Sunroom" →
  sensor_temp rs = Tenths d →
  let device := s !! "device_SunroomHeater" in
  (110 < d < 120 ∨
   (120 ≤ d ∧ device = Some (JStr "powerOff")) ∨
   (d ≤ 110 ∧ device = Some (JStr "powerOn"))) →
  let st := run w schedule (run_sync (on_remoteSensor cfg rs) (State s f ev [] n None)) in
  Decide (Tenths d) device = None ∧
  power_commands (st_events st) = power_commands ev ∧
  st_settings st = s ∧ st_file st = Some s ∧ saved (st_events st) = s :: saved ev.
Proof.
  intros Hname Htemp device Hcase st.
  assert (Hdecide : Decide (Tenths d) device = None).
  { unfold Decide. cbn [temp_gt temp_lt].
    destruct Hcase as [Hd|[[Hd ->]|[Hd ->]]]; cbn [strict_neq_word String.eqb Ascii.eqb Bool.eqb negb].
    - destruct (Z.ltb_spec (10 * 12) d); [lia|].
      destruct (Z.ltb_spec d (10 * 11)); [lia|]. reflexivity.
    - rewrite andb_false_r. destruct (Z.ltb_spec d (10 * 11)); [lia|]. reflexivity.
    - rewrite andb_false_r. destruct (Z.ltb_spec (10 * 12) d); [lia|]. reflexivity. }
  split; [exact Hdecide|].
  apply on_remoteSensor_no_action; [exact Hname|]. by rewrite Htemp.
Qed.

(** 11.7 degrees with the heater recorded on. *)
Lemma no_action_when_settled_witness :
  let st := run (world_ok "530") [0; 0]%nat
              (run_sync (on_remoteSensor cfg0 (sunroom "530"))
                 (State (authorized "powerOn") None [] [] 0 None)) in
  power_commands (st_events st) = [] ∧ st_settings st = authorized "powerOn".
Proof.
  destruct (no_action_when_settled cfg0 (world_ok "530") [0; 0]%nat (sunroom "530")
              (authorized "powerOn") None [] 0 117) as (_ & Hcmd & Hset & _).
  - reflexivity.
  - reflexivity.
  - left. lia.
  - split; [exact Hcmd | exact Hset].
Defined.

(** Whole runs: 13.0 degrees with the heater on, 10.0 degrees with the
    heater off, and a command that the plug refuses or never answers. *)
Example heater_switched_off :
  device_after (world_ok "554") "powerOn" = Some (JStr "powerOff") ∧
  file_device_after (world_ok "554") "powerOn" = Some (JStr "powerOff").
Proof. split; vm_compute; reflexivity. Qed.

Example heater_switched_on :
  device_after (world_ok "500") "powerOff" = Some (JStr "powerOn") ∧
  file_device_after (world_ok "500") "powerOff" = Some (JStr "powerOn").
Proof. split; vm_compute; reflexivity. Qed.

Example heater_refused :
  device_after (world_relay "554" (Fulfilled (-1))) "powerOn" = Some (JStr "powerOn") ∧
  file_device_after (world_relay "554" (Fulfilled (-1))) "powerOn" = Some (JStr "powerOn").
Proof. split; vm_compute; reflexivity. Qed.

Example heater_unreachable :
  device_after (world_relay "554" (Rejected "Device is offline")) "powerOn" =
    Some (JStr "powerOn") ∧
  file_device_after (world_relay "554" (Rejected "Device is offline")) "powerOn" =
    Some (JStr "powerOn").
Proof. split; vm_compute; reflexivity. Qed.

(* ===================================================================== *)
(** ** Properties: soundness of the invariants *)
(* ===================================================================== *)

(** Running a function that satisfies [wp]. *)
Lemma run_sync_wp (w : world) (I : view → Prop) (p : async unit) :
  ∀ Ψ st,
    Forall (task_safe w I) (st_pending st) →
    st_exit st = None →
    wp w I p returns Ψ (view_of st) →
    Forall (task_safe w I) (st_pending (run_sync p st)) ∧
    (st_exit (run_sync p st) ≠ None → st_pending (run_sync p st) = []) ∧
    match st_exit (run_sync p st) with
    | None => Ψ (view_of (run_sync p st))
    | Some _ => I (view_of (run_sync p st))
    end.
Proof.
  revert p. fix IH 1. intros p Ψ st Hpend Hexit Hwp.
  destruct p as [a|e|code|m k|m k|doc k|k|k|f k|o k|q k]; cbn [run_sync wp] in *.
  - rewrite Hexit. by repeat split.
  - unfold emit; cbn. rewrite Hexit. by repeat split.
  - unfold halt; cbn. by repeat split.
  - apply IH; auto.
  - apply IH; auto.
  - apply IH; auto.
  - apply IH; auto.
  - apply IH; auto.
  - apply IH; auto.
  - destruct Hwp as [HΨ Hk]. unfold suspend; cbn. rewrite Hexit.
    split; [|split; [done | exact HΨ]].
    apply Forall_app. split; [done|]. constructor; [|constructor].
    intros v' Hv'. cbn. apply Hk, Hv'.
  - destruct (IH q _ st Hpend Hexit Hwp) as (Hp' & Hx' & Hpost).
    destruct (st_exit (run_sync q st)) eqn:E.
    + rewrite E. split; [done|]. split; [|done]. intros _. by apply Hx'.
    + apply IH; auto.
Qed.

(** A turn of the event loop keeps the invariant. *)
Lemma step_inv (w : world) (I : view → Prop) (st : state) (choice : nat) :
  inv w I st → inv w I (step w st choice).
Proof.
  intros (HI & Hpend & Hexit). unfold step.
  destruct (st_pending st !! (choice mod List.length (st_pending st))%nat) as [t|] eqn:E;
    [|by repeat split].
  assert (Hnone : st_exit st = None).
  { destruct (st_exit st) eqn:Ex; [|done].
    rewrite Hexit in E by done. by rewrite lookup_nil in E. }
  assert (Ht : task_safe w I t).
  { eapply Forall_forall; [exact Hpend|]. eapply list_elem_of_lookup_2, E. }
  set (i := (choice mod List.length (st_pending st))%nat) in *.
  destruct (run_sync_wp w I (task_k t (w (task_id t) (task_op t))) I
              (emit (Settled (task_id t) (task_op t) (w (task_id t) (task_op t)))
                 (drop_pending i st))) as (H1 & H2 & H3).
  - cbn. by apply Forall_delete.
  - exact Hnone.
  - apply (Ht _ HI).
  - repeat split; [|done|done].
    destruct (st_exit (run_sync _ _)); exact H3.
Qed.

(** So does every schedule. *)
Lemma run_inv (w : world) (I : view → Prop) (schedule : list nat) :
  ∀ st, inv w I st → inv w I (run w schedule st).
Proof.
  unfold run. induction schedule as [|c l IH]; intros st Hst; cbn; [done|].
  apply IH, step_inv, Hst.
Qed.

(** [wp] is monotone in what it asks of the continuation and of the
    caller. *)
Lemma wp_mono (w : world) (I : view → Prop) :
  ∀ (A : Type) (p : async A) (Φ Φ' : (view → Prop) → A → view → Prop) (Ψ Ψ' : view → Prop) v,
    (∀ (Ψ1 Ψ2 : view → Prop) a v, (∀ v, Ψ1 v → Ψ2 v) → Φ Ψ1 a v → Φ' Ψ2 a v) →
    (∀ v, Ψ v → Ψ' v) →
    wp w I p Φ Ψ v → wp w I p Φ' Ψ' v.
Proof.
  fix IH 2. intros A p Φ Φ' Ψ Ψ' v HΦ HΨ.
  destruct p as [a|e|code|m k|m k|doc k|k|k|f k|o k|q k]; cbn [wp].
  - apply HΦ, HΨ.
  - apply HΨ.
  - done.
  - apply IH; assumption.
  - apply IH; assumption.
  - apply IH; assumption.
  - apply IH; assumption.
  - apply IH; assumption.
  - apply IH; assumption.
  - intros [H1 H2]. split; [by apply HΨ|].
    intros v' Hv'. eapply IH; [exact HΦ | | apply H2, Hv']. auto.
  - apply IH.
    + intros Ψ1 Ψ2 _ v0 H12. apply H12.
    + intros v0. apply IH; assumption.
Qed.

(** Sequencing. *)
Lemma wp_bind (w : world) (I : view → Prop) :
  ∀ (A B : Type) (p : async A) (f : A → async B) Φ Ψ v,
    wp w I p (λ Ψ' a v', wp w I (f a) Φ Ψ' v') Ψ v →
    wp w I (bind p f) Φ Ψ v.
Proof.
  fix IH 3. intros A B p f Φ Ψ v.
  destruct p as [a|e|code|m k|m k|doc k|k|k|g k|o k|q k]; cbn [wp bind]; try done.
  - apply IH.
  - apply IH.
  - apply IH.
  - apply IH.
  - apply IH.
  - apply IH.
  - intros [H1 H2]. split; [done|]. intros v' Hv'. apply IH, H2, Hv'.
  - apply wp_mono.
    + intros Ψ1 Ψ2 _ v0 H12. apply H12.
    + intros v0. apply IH.
Qed.

Lemma preserves_ret w I {A : Type} (a : A) : preserves w I (Ret a).
Proof. intros Φ Ψ v HΦ HΨ Hv. cbn. by apply HΦ. Qed.

Lemma preserves_bind w I {A B : Type} (p : async A) (f : A → async B) :
  preserves w I p → (∀ a, preserves w I (f a)) → preserves w I (bind p f).
Proof.
  intros Hp Hf Φ Ψ v HΦ HΨ Hv. apply wp_bind, Hp; [|done|done].
  intros Ψ' a v' HΨ' Hv'. by apply Hf.
Qed.

Lemma preserves_spawn w I {A : Type} (q : async unit) (k : async A) :
  preserves w I q → preserves w I k → preserves w I (Spawn q k).
Proof.
  intros Hq Hk Φ Ψ v HΦ HΨ Hv. cbn [wp]. apply Hq; [|by intros; apply Hk|done].
  intros Ψ' a v' HΨ' Hv'. by apply HΨ'.
Qed.

Lemma preserves_for_each w I {X : Type} (l : list X) (f : X → async unit) :
  (∀ x, preserves w I (f x)) → preserves w I (for_each l f).
Proof.
  intros Hf. induction l as [|x l IH]; cbn [for_each].
  - apply preserves_ret.
  - apply preserves_bind; [apply Hf | intros _; apply IH].
Qed.

Lemma preserves_run w I (p : async unit) (st : state) (schedule : list nat) :
  preserves w I p → st_pending st = [] → st_exit st = None → I (view_of st) →
  inv w I (run w schedule (run_sync p st)).
Proof.
  intros Hp Hpend Hexit HI. apply run_inv.
  destruct (run_sync_wp w I p I st) as (H1 & H2 & H3).
  - rewrite Hpend. constructor.
  - exact Hexit.
  - apply Hp; [|done|done]. intros Ψ' a v' HΨ' Hv'. by apply HΨ'.
  - repeat split; [|done|done]. destruct (st_exit (run_sync p st)); exact H3.
Qed.

(* ===================================================================== *)
(** ** Properties: the recorded device state *)
(* ===================================================================== *)



Section DeviceInv.
Variables (before : option jsval) (file0 : option snapshot) (ev0 : list event).






End DeviceInv.






(* ===================================================================== *)
(** ** Properties: the grant of the token request *)
(* ===================================================================== *)

Section TokenInv.
Variables (body : list fragment) (issued : Prop).





End TokenInv.






(** Lines 87-95, for [wp]. *)
Lemma wp_main_loaded (cfg : config) (w : world) (I Ψ : view → Prop) (file : option snapshot) :
  wp w I (add_app cfg >> update_token cfg >> read_sensors cfg) returns Ψ
     (View (default ∅ file) (Some (default ∅ file)) (loaded_events file) 0) →
  wp w I (main cfg) returns Ψ (view_of (boot file)).
Proof.
  unfold main, load_settings, boot, view_of. cbn [st_settings st_file st_events st_next].
  destruct file as [doc|]; wp_script; done.
Qed.




(* ===================================================================== *)
(** ** Properties: the recorded device state, in every run *)
(* ===================================================================== *)




(* ===================================================================== *)
(** ** Properties: readings *)
(* ===================================================================== *)

(** X1.  Lines 197 and 205.  For a Fahrenheit reading [f] (in tenths of a
    degree) of at most a billion, where double precision leaves the
    quotient on the right side of every rounding boundary, the
    conversion gives the tenth of a degree Celsius nearest to it: [d]
    is the only integer with [|d/10 - (f - 320)/18| < 0.05]. *)
Theorem to_celsius_nearest_tenth (f d : Z) :
  Z.abs f ≤ 1000000000 →
  to_celsius (Some f) = Tenths d ↔ Z.abs (18 * d - 10 * (f - 320)) ≤ 8.
Proof.
  intros _. unfold to_celsius. split.
  - intros [= <-]. Z.div_mod_to_equations. lia.
  - intros H. f_equal. Z.div_mod_to_equations. lia.
Qed.

(** 53.6 F is 12.0 degrees. *)
Lemma to_celsius_nearest_tenth_witness :
  to_celsius (Some 536) = Tenths 120 ↔ Z.abs (18 * 120 - 10 * (536 - 320)) ≤ 8.
Proof. apply (to_celsius_nearest_tenth 536 120). cbn. lia. Defined.

(** X2.  Lines 205, 213, 223 and 235, in the unit of the sensor.  The
    reading is above 12 degrees from 53.7 F on, below 11 degrees up to
    51.7 F and below 5 degrees up to 40.9 F. *)
Theorem raw_thresholds (f : Z) :
  let temp := to_celsius (Some f) in
  (temp_gt temp 12 = true ↔ 537 ≤ f) ∧
  (temp_lt temp 11 = true ↔ f ≤ 517) ∧
  (temp_lt temp 5 = true ↔ f ≤ 409).
Proof.
  cbn [to_celsius temp_gt temp_lt]. rewrite !Z.ltb_lt.
  repeat split; intros H; Z.div_mod_to_equations; lia.
Qed.

(** The capabilities read from an accumulator. *)
Lemma read_capabilities_from (caps : list capability) (acc : reading * bool) :
  fold_left read_capability caps acc =
  (from_option (λ c, to_celsius (js_Number (cap_value c))) acc.1
     (last (filter (λ c, cap_type c = "temperature") caps)),
   from_option (λ c, String.eqb (cap_value c) "true") acc.2
     (last (filter (λ c, cap_type c = "occupancy") caps))).
Proof.
  revert acc. induction caps as [|c caps IH]; intros [t o]; [reflexivity|].
  cbn [fold_left]. rewrite IH. unfold read_capability. rewrite !filter_cons.
  destruct (String.eqb_spec (cap_type c) "temperature") as [E|E].
  - rewrite decide_True by done.
    destruct (decide (cap_type c = "occupancy")) as [E'|_]; [congruence|].
    cbn [fst snd]. rewrite last_cons.
    by destruct (last (filter (λ c0, cap_type c0 = "temperature") caps)).
  - rewrite decide_False by done.
    destruct (String.eqb_spec (cap_type c) "occupancy") as [E'|E'].
    + rewrite decide_True by done. cbn [fst snd]. rewrite last_cons.
      by destruct (last (filter (λ c0, cap_type c0 = "occupancy") caps)).
    + rewrite decide_False by done. reflexivity.
Qed.

(** X3.  Lines 202-208.  The temperature of a sensor is that of its last
    [temperature] capability, 0.0 degrees when it has none; the
    occupancy flag is set when the value of its last [occupancy]
    capability is the text [true], and is off when it has none.
    Capabilities of any other type are ignored. *)
Theorem read_capabilities_last (caps : list capability) :
  read_capabilities caps =
  (from_option (λ c, to_celsius (js_Number (cap_value c))) (Tenths 0)
     (last (filter (λ c, cap_type c = "temperature") caps)),
   from_option (λ c, String.eqb (cap_value c) "true") false
     (last (filter (λ c, cap_type c = "occupancy") caps))).
Proof. apply read_capabilities_from. Qed.

(* ===================================================================== *)
(** ** Properties: the Sunroom callback, step by step *)
(* ===================================================================== *)

(** X4.  Lines 73-84.  [deviceToggle] sends three requests in a row: the
    login, the device list, then the power command for [name], which is
    [powerOn] when [powerMode] is exactly the text [powerOn] and
    [powerOff] for any other text.  When all three are answered it
    gives its caller [true] if the relay's error code is 0 and [false]
    otherwise, having touched neither the settings nor the file. *)
Theorem deviceToggle_result (cfg : config) (w : world) (name powerMode : string)
    (rest : bool → async unit) (s : snapshot) f ev n c1 c2 c3 code :
  let login := tplink_login cfg in
  let command := TplinkPower name (String.eqb powerMode "powerOn") in
  w n login = Fulfilled tt →
  w (S n) TplinkGetDeviceList = Fulfilled tt →
  w (S (S n)) command = Fulfilled code →
  run w [c1; c2; c3]
    (run_sync (let* result := deviceToggle cfg name powerMode in rest result)
       (State s f ev [] n None)) =
  run_sync (rest (code =? 0))
    (State s f
       (Settled (S (S n)) command (Fulfilled code) :: Issued (S (S n)) command
          :: Settled (S n) TplinkGetDeviceList (Fulfilled tt) :: Issued (S n) TplinkGetDeviceList
          :: Settled n login (Fulfilled tt) :: Issued n login :: ev)
       [] (S (S (S n))) None).
Proof.
  intros login command Hlogin Hlist Hpower. subst login command.
  unfold deviceToggle, tplink_login in *. script.
  rewrite !run_cons, run_nil, step_single. script. rewrite Hlogin. script.
  rewrite step_single. script. rewrite Hlist. script.
  rewrite step_single. script. rewrite Hpower. script. reflexivity.
Qed.

(** A mode in another spelling switches the plug off. *)
Lemma deviceToggle_result_witness :
  power_commands
    (st_events (run (world_ok "554") [0; 0; 0]%nat
                  (run_sync (let* result := deviceToggle cfg0 "SunroomHeater" "poweron" in Ret tt)
                     (State ∅ None [] [] 0 None)))) =
  [("SunroomHeater", false)].
Proof.
  rewrite (deviceToggle_result cfg0 (world_ok "554") "SunroomHeater" "poweron" (λ _, Ret tt)
             ∅ None [] 0 0 0 0 0 eq_refl eq_refl eq_refl).
  reflexivity.
Defined.

(** The Sunroom callback when the plug answers the power command. *)
Lemma on_remoteSensor_commanded (cfg : config) (w : world) (rs : remoteSensor)
    (s : snapshot) f ev n c1 c2 c3 powerMode code :
  sensor_name rs = "Sunroom" →
  Decide (sensor_temp rs) (s !! "device_SunroomHeater") = Some powerMode →
  w n (tplink_login cfg) = Fulfilled tt →
  w (S n) TplinkGetDeviceList = Fulfilled tt →
  w (S (S n)) (TplinkPower "SunroomHeater" (String.eqb powerMode "powerOn")) = Fulfilled code →
  let temp := sensor_temp rs in
  let s' := if code =? 0 then <["device_SunroomHeater" := JStr powerMode]> s else s in
  let st := run w [c1; c2; c3] (run_sync (on_remoteSensor cfg rs) (State s f ev [] n None)) in
  st_settings st = s' ∧ st_file st = Some s' ∧ saved (st_events st) = s' :: saved ev ∧
  logged (st_events st) =
    deviceAction powerMode (code =? 0) temp
      :: MsgSensor "Sunroom" temp (read_capabilities (sensor_capability rs)).2 :: logged ev ∧
  requested (st_events st) =
    (if temp_lt temp 5 then [alert_mail cfg temp] else []) ++
    [TplinkPower "SunroomHeater" (String.eqb powerMode "powerOn"); TplinkGetDeviceList;
     tplink_login cfg] ++ requested ev ∧
  map task_op (st_pending st) = (if temp_lt temp 5 then [alert_mail cfg temp] else []).
Proof.
  intros Hname Hdecide Hlogin Hlist Hpower temp s' st. subst temp s' st.
  unfold on_remoteSensor, deviceToggle, mailSend, Decide, sensor_temp, tplink_login,
    deviceAction, alert_mail in *.
  rewrite Hname. cbn [String.eqb Ascii.eqb Bool.eqb]. script.
  destruct (temp_gt _ 12 && _); [|destruct (temp_lt _ 11 && _); [|done]];
    injection Hdecide as <-; cbn [String.eqb Ascii.eqb Bool.eqb] in *;
    script; rewrite !run_cons, run_nil, step_single; script; rewrite Hlogin; script;
    rewrite step_single; script; rewrite Hlist; script;
    rewrite step_single; script; rewrite Hpower; script;
    destruct (code =? 0); script; destruct (temp_lt _ 5); script; done.
Qed.

(** X5.  Lines 213-233, the converse of the confirmation rule.  For the
    Sunroom sensor with a decision, when the plug's cloud answers: if
    the power command is answered with error code 0 the new power mode
    is recorded in the settings and in the file and the journal says the
    heater is turning on or off; with any other code the recorded state
    stays as it was, the settings are written back unchanged and the
    journal says the command failed.  In both cases the alert mail of
    line 236 is then requested exactly when the reading is below 5
    degrees. *)
Theorem command_outcome (cfg : config) (w : world) (rs : remoteSensor)
    (s : snapshot) f ev n c1 c2 c3 powerMode code :
  sensor_name rs = "Sunroom" →
  Decide (sensor_temp rs) (s !! "device_SunroomHeater") = Some powerMode →
  w n (tplink_login cfg) = Fulfilled tt →
  w (S n) TplinkGetDeviceList = Fulfilled tt →
  w (S (S n)) (TplinkPower "SunroomHeater" (String.eqb powerMode "powerOn")) = Fulfilled code →
  let temp := sensor_temp rs in
  let st := run w [c1; c2; c3] (run_sync (on_remoteSensor cfg rs) (State s f ev [] n None)) in
  (code = 0 →
     st_settings st = <["device_SunroomHeater" := JStr powerMode]> s ∧
     st_file st = Some (<["device_SunroomHeater" := JStr powerMode]> s) ∧
     head (logged (st_events st)) = Some (deviceAction powerMode true temp)) ∧
  (code ≠ 0 →
     st_settings st = s ∧ st_file st = Some s ∧
     head (logged (st_events st)) = Some (deviceAction powerMode false temp)) ∧
  map task_op (st_pending st) = (if temp_lt temp 5 then [alert_mail cfg temp] else []).
Proof.
  intros Hname Hdecide Hlogin Hlist Hpower temp st.
  destruct (on_remoteSensor_commanded cfg w rs s f ev n c1 c2 c3 powerMode code
              Hname Hdecide Hlogin Hlist Hpower) as (Hs & Hf & _ & Hlog & _ & Hpend).
  fold temp st in Hs, Hf, Hlog, Hpend. split; [|split; [|exact Hpend]].
  - intros ->. cbn [Z.eqb] in *. by rewrite Hs, Hf, Hlog.
  - intros Hcode. destruct (Z.eqb_spec code 0) as [|_]; [done|]. by rewrite Hs, Hf, Hlog.
Qed.

(** 13.0 degrees with the heater recorded on, and a plug that obeys. *)
Lemma command_outcome_witness :
  let st := run (world_ok "554") [0; 0; 0]%nat
              (run_sync (on_remoteSensor cfg0 (sunroom "554"))
                 (State (authorized "powerOn") None [] [] 0 None)) in
  st_settings st = <["device_SunroomHeater" := JStr "powerOff"]> (authorized "powerOn") ∧
  map task_op (st_pending st) = [].
Proof.
  destruct (command_outcome cfg0 (world_ok "554") (sunroom "554") (authorized "powerOn")
              None [] 0 0 0 0 "powerOff" 0)
    as (Hok & _ & Hpend); try reflexivity.
  split; [apply Hok; reflexivity | exact Hpend].
Defined.

(** X6.  Lines 75-81 and 215, 225.  For the Sunroom sensor with a decision,
    when the login, the device list or the power command is rejected,
    [deviceToggle] throws and nothing in the callback catches it: the
    callback ends there with an unhandled rejection.  The settings and
    the file stay as they were, nothing is written, the journal has no
    line for the command, and no alert mail is requested, however cold
    the reading is. *)
Theorem plug_failure_abandons (cfg : config) (w : world) (rs : remoteSensor)
    (s : snapshot) f ev n c1 c2 c3 powerMode reason :
  sensor_name rs = "Sunroom" →
  Decide (sensor_temp rs) (s !! "device_SunroomHeater") = Some powerMode →
  let command := TplinkPower "SunroomHeater" (String.eqb powerMode "powerOn") in
  (w n (tplink_login cfg) = Rejected reason ∨
   (w n (tplink_login cfg) = Fulfilled tt ∧ w (S n) TplinkGetDeviceList = Rejected reason) ∨
   (w n (tplink_login cfg) = Fulfilled tt ∧ w (S n) TplinkGetDeviceList = Fulfilled tt ∧
    w (S (S n)) command = Rejected reason)) →
  let st := run w [c1; c2; c3] (run_sync (on_remoteSensor cfg rs) (State s f ev [] n None)) in
  head (st_events st) = Some (Unhandled (TplinkFailure reason)) ∧
  st_settings st = s ∧ st_file st = f ∧ saved (st_events st) = saved ev ∧
  st_pending st = [] ∧ st_exit st = None ∧
  logged (st_events st) =
    MsgSensor "Sunroom" (sensor_temp rs) (read_capabilities (sensor_capability rs)).2
      :: logged ev ∧
  ∀ o, In o (requested (st_events st)) →
    In o (requested ev) ∨ o = tplink_login cfg ∨ o = TplinkGetDeviceList ∨ o = command.
Proof.
  intros Hname Hdecide command Hw st. subst st command.
  unfold on_remoteSensor, deviceToggle, mailSend, Decide, sensor_temp, tplink_login in *.
  rewrite Hname. cbn [String.eqb Ascii.eqb Bool.eqb]. script.
  destruct (temp_gt _ 12 && _); [|destruct (temp_lt _ 11 && _); [|done]];
    injection Hdecide as <-; cbn [String.eqb Ascii.eqb Bool.eqb] in *;
    script; rewrite !run_cons, run_nil, step_single; script;
    (destruct Hw as [Hlogin|[[Hlogin Hlist]|(Hlogin & Hlist & Hpower)]];
     [ rewrite Hlogin; script; rewrite !step_idle
     | rewrite Hlogin; script; rewrite step_single; script; rewrite Hlist; script;
       rewrite step_idle
     | rewrite Hlogin; script; rewrite step_single; script; rewrite Hlist; script;
       rewrite step_single; script; rewrite Hpower; script ]);
    cbn [st_events st_settings st_file st_pending st_exit head saved];
    (repeat split; [];
     unfold requested; intros o Hin; cbn in Hin |- *;
     repeat (destruct Hin as [<-|Hin]; [auto 6|]); by left).
Qed.

(** 1.1 degrees with the heater recorded off and a plug that is
    offline: no alert is mailed. *)
Lemma plug_failure_abandons_witness :
  let st := run (world_relay "340" (Rejected "Device is offline")) [0; 0; 0]%nat
              (run_sync (on_remoteSensor cfg0 (sunroom "340"))
                 (State (authorized "powerOff") None [] [] 0 None)) in
  head (st_events st) = Some (Unhandled (TplinkFailure "Device is offline")) ∧
  st_file st = None ∧ st_pending st = [].
Proof.
  destruct (plug_failure_abandons cfg0 (world_relay "340" (Rejected "Device is offline"))
              (sunroom "340") (authorized "powerOff") None [] 0 0 0 0 "powerOn"
              "Device is offline")
    as (Hhead & _ & Hfile & _ & Hpend & _).
  - reflexivity.
  - reflexivity.
  - right. right. repeat split.
  - repeat split; assumption.
Defined.

(** X7.  Lines 233-238.  For the Sunroom sensor below 5 degrees with the
    heater already recorded on, every run writes the settings back and
    requests the alert mail, whose subject and text carry the reading;
    the journal line that follows is written when the mail has been
    sent and only then. *)
Theorem cold_alert (cfg : config) (w : world) (rs : remoteSensor)
    (s : snapshot) f ev n c :
  sensor_name rs = "Sunroom" →
  temp_lt (sensor_temp rs) 5 = true →
  s !! "device_SunroomHeater" = Some (JStr "powerOn") →
  let temp := sensor_temp rs in
  let mail := alert_mail cfg temp in
  let st := run w [c] (run_sync (on_remoteSensor cfg rs) (State s f ev [] n None)) in
  st_settings st = s ∧ st_file st = Some s ∧ st_pending st = [] ∧
  requested (st_events st) = mail :: requested ev ∧
  logged (st_events st) =
    match w n mail with
    | Fulfilled _ => [MsgSunroomProblem]
    | Rejected _ => []
    end ++ MsgSensor "Sunroom" temp (read_capabilities (sensor_capability rs)).2 :: logged ev.
Proof.
  intros Hname Hcold Hdevice temp mail st. subst temp mail st.
  unfold on_remoteSensor, mailSend, sensor_temp, alert_mail in *.
  rewrite Hname. cbn [String.eqb Ascii.eqb Bool.eqb]. script.
  rewrite Hdevice. cbn [strict_neq_word String.eqb Ascii.eqb Bool.eqb negb].
  rewrite andb_false_r.
  assert (Hgt : temp_gt (read_capabilities (sensor_capability rs)).1 12 = false).
  { destruct (read_capabilities (sensor_capability rs)).1 as [d|]; cbn in *; [lia|done]. }
  rewrite Hgt. cbn [andb]. script. rewrite Hcold. script.
  rewrite run_cons, run_nil, step_single. script.
  destruct (w n (SendMail _ _ _)) as [[]|e]; script; done.
Qed.

(** 4.4 degrees with the heater recorded on. *)
Lemma cold_alert_witness :
  let st := run (world_ok "400") [0]%nat
              (run_sync (on_remoteSensor cfg0 (sunroom "400"))
                 (State (authorized "powerOn") None [] [] 0 None)) in
  requested (st_events st) = [alert_mail cfg0 (Tenths 44)] ∧
  logged (st_events st) = [MsgSunroomProblem; MsgSensor "Sunroom" (Tenths 44) false].
Proof.
  destruct (cold_alert cfg0 (world_ok "400") (sunroom "400") (authorized "powerOn")
              None [] 0 0) as (_ & _ & _ & Hissued & Hlogged); try reflexivity.
  split; [exact Hissued | exact Hlogged].
Defined.

(** [Number] of a word. *)
Lemma js_Number_word (text : string) : word_text text = true → js_Number text = None.
Proof.
  destruct text as [|c rest]; [done|]. cbn [word_text].
  destruct c as [[|] [|] [|] [|] [|] [|] [|] [|]]; intros H; try discriminate H; reflexivity.
Qed.

(** X8.  Lines 205, 213, 223 and 235.  When the value of the last
    [temperature] capability of the Sunroom sensor is a word, such as
    the [unknown] of a sensor that cannot be reached, the reading is
    [NaN], which compares false with every threshold: the callback
    runs to its end at once, sends no power command and no alert, and
    writes the settings back as they are. *)
Theorem unreadable_sensor_idle (cfg : config) (rs : remoteSensor) (c : capability)
    (s : snapshot) f ev pend n :
  sensor_name rs = "Sunroom" →
  last (filter (λ c, cap_type c = "temperature") (sensor_capability rs)) = Some c →
  word_text (cap_value c) = true →
  run_sync (on_remoteSensor cfg rs) (State s f ev pend n None) =
  let line := MsgSensor "Sunroom" NaN (read_capabilities (sensor_capability rs)).2 in
  State s (Some s) (Saved s :: Console line :: Journal line :: ev) pend n None.
Proof.
  intros Hname Hlast Hword.
  assert (Htemp : (read_capabilities (sensor_capability rs)).1 = NaN).
  { unfold read_capabilities. rewrite read_capabilities_from. cbn [fst].
    rewrite Hlast. cbn [from_option]. by rewrite js_Number_word. }
  unfold on_remoteSensor.
  rewrite Hname, Htemp. cbn [String.eqb Ascii.eqb Bool.eqb temp_gt temp_lt andb]. script.
  reflexivity.
Qed.

(** A sensor that ecobee cannot reach. *)
Lemma unreadable_sensor_idle_witness :
  run_sync (on_remoteSensor cfg0 (sunroom "unknown"))
    (State (authorized "powerOff") None [] [] 0 None) =
  State (authorized "powerOff") (Some (authorized "powerOff"))
    [Saved (authorized "powerOff"); Console (MsgSensor "Sunroom" NaN false);
     Journal (MsgSensor "Sunroom" NaN false)] [] 0 None.
Proof.
  apply (unreadable_sensor_idle cfg0 (sunroom "unknown") (Capability "temperature" "unknown")
           (authorized "powerOff") None [] [] 0); reflexivity.
Defined.

(** X9.  Lines 202-205 with 223 and 235.  A Sunroom sensor without a
    [temperature] capability keeps the initial [temp = 0]: it reads as
    0.0 degrees, so with the heater not recorded on and a plug that
    obeys, the heater is switched on and recorded on, and the alert mail
    for 0.0 degrees is requested. *)
Theorem missing_temperature_reads_zero (cfg : config) (w : world) (rs : remoteSensor)
    (s : snapshot) f ev n c1 c2 c3 :
  sensor_name rs = "Sunroom" →
  (∀ c, In c (sensor_capability rs) → cap_type c ≠ "temperature") →
  s !! "device_SunroomHeater" ≠ Some (JStr "powerOn") →
  w n (tplink_login cfg) = Fulfilled tt →
  w (S n) TplinkGetDeviceList = Fulfilled tt →
  w (S (S n)) (TplinkPower "SunroomHeater" true) = Fulfilled 0 →
  let st := run w [c1; c2; c3] (run_sync (on_remoteSensor cfg rs) (State s f ev [] n None)) in
  sensor_temp rs = Tenths 0 ∧
  st_settings st = <["device_SunroomHeater" := JStr "powerOn"]> s ∧
  st_file st = Some (<["device_SunroomHeater" := JStr "powerOn"]> s) ∧
  requested (st_events st) =
    [alert_mail cfg (Tenths 0); TplinkPower "SunroomHeater" true; TplinkGetDeviceList;
     tplink_login cfg] ++ requested ev.
Proof.
  intros Hname Hcaps Hdevice Hlogin Hlist Hpower st.
  assert (Htemp : sensor_temp rs = Tenths 0).
  { unfold sensor_temp, read_capabilities. rewrite read_capabilities_from. cbn [fst].
    assert (E : filter (λ c, cap_type c = "temperature") (sensor_capability rs) = []).
    { induction (sensor_capability rs) as [|c l IH]; [done|].
      rewrite filter_cons, decide_False by (apply Hcaps; by left).
      apply IH. intros c' Hc'. apply Hcaps. by right. }
    by rewrite E. }
  assert (Hdecide : Decide (sensor_temp rs) (s !! "device_SunroomHeater") = Some "powerOn").
  { rewrite Htemp. unfold Decide. cbn [temp_gt temp_lt andb Z.ltb Z.mul Z.compare].
    apply strict_neq_word_spec in Hdevice. by rewrite Hdevice. }
  destruct (on_remoteSensor_commanded cfg w rs s f ev n c1 c2 c3 "powerOn" 0
              Hname Hdecide Hlogin Hlist Hpower) as (Hs & Hf & _ & _ & Hissued & _).
  fold st in Hs, Hf, Hissued. rewrite Htemp in Hissued.
  split; [exact Htemp|]. split; [exact Hs|]. split; [exact Hf|]. exact Hissued.
Qed.

(** A sensor that reports occupancy only. *)
Lemma missing_temperature_reads_zero_witness :
  let rs := RemoteSensor "Sunroom" [Capability "occupancy" "true"] in
  let st := run (world_ok "554") [0; 0; 0]%nat
              (run_sync (on_remoteSensor cfg0 rs)
                 (State (authorized "powerOff") None [] [] 0 None)) in
  sensor_temp rs = Tenths 0 ∧
  st_settings st = <["device_SunroomHeater" := JStr "powerOn"]> (authorized "powerOff").
Proof.
  destruct (missing_temperature_reads_zero cfg0 (world_ok "554")
              (RemoteSensor "Sunroom" [Capability "occupancy" "true"])
              (authorized "powerOff") None [] 0 0 0 0)
    as (Htemp & Hs & _); try reflexivity.
  - intros c [<-|[]]. discriminate.
  - intros H. vm_compute in H. discriminate H.
  - split; [exact Htemp | exact Hs].
Defined.

(** A decision is not taken again once its power mode is recorded. *)
Lemma Decide_recorded (temp : reading) (device : option jsval) (powerMode : string) :
  Decide temp device = Some powerMode → Decide temp (Some (JStr powerMode)) = None.
Proof.
  unfold Decide. destruct temp as [d|]; cbn [temp_gt temp_lt andb]; [|done].
  destruct (Z.ltb_spec (10 * 12) d); cbn [andb].
  - destruct (strict_neq_word device "powerOff").
    + intros [= <-]. cbn. destruct (Z.ltb_spec d (10 * 11)); [lia|done].
    + destruct (Z.ltb_spec d (10 * 11)); [lia|done].
  - destruct (Z.ltb_spec d (10 * 11)); cbn [andb]; [|done].
    destruct (strict_neq_word device "powerOn"); [|done].
    intros [= <-]. reflexivity.
Qed.

(** X10.  Lines 213-233, over two polls.  When a power command has been
    answered with error code 0, the same reading on a later poll that
    starts from the settings left behind takes no decision: no command
    is sent again, whatever the world and the schedule.  When the
    command was answered with another code, the settings left behind
    call for the same command again. *)
Theorem command_repeated_until_confirmed (cfg : config) (w w' : world) (rs : remoteSensor)
    (s : snapshot) f ev n c1 c2 c3 (schedule : list nat) powerMode code :
  sensor_name rs = "Sunroom" →
  Decide (sensor_temp rs) (s !! "device_SunroomHeater") = Some powerMode →
  w n (tplink_login cfg) = Fulfilled tt →
  w (S n) TplinkGetDeviceList = Fulfilled tt →
  w (S (S n)) (TplinkPower "SunroomHeater" (String.eqb powerMode "powerOn")) = Fulfilled code →
  let st := run w [c1; c2; c3] (run_sync (on_remoteSensor cfg rs) (State s f ev [] n None)) in
  let again := run w' schedule
                 (run_sync (on_remoteSensor cfg rs)
                    (State (st_settings st) (st_file st) (st_events st) [] (st_next st) None)) in
  (code = 0 →
     power_commands (st_events again) = power_commands (st_events st) ∧
     st_settings again = st_settings st) ∧
  (code ≠ 0 →
     Decide (sensor_temp rs) (st_settings st !! "device_SunroomHeater") = Some powerMode).
Proof.
  intros Hname Hdecide Hlogin Hlist Hpower st again.
  destruct (on_remoteSensor_commanded cfg w rs s f ev n c1 c2 c3 powerMode code
              Hname Hdecide Hlogin Hlist Hpower) as (Hs & _).
  fold st in Hs. split.
  - intros ->. cbn [Z.eqb] in Hs.
    destruct (on_remoteSensor_no_action cfg w' schedule rs (st_settings st) (st_file st)
                (st_events st) (st_next st) Hname) as (Hcmd & Hset & _).
    + rewrite Hs, lookup_insert_eq. by eapply Decide_recorded.
    + by split.
  - intros Hcode. destruct (Z.eqb_spec code 0) as [|_]; [done|]. by rewrite Hs.
Qed.

(** 13.0 degrees with the heater recorded on: switched off once. *)
Lemma command_repeated_until_confirmed_witness :
  let st := run (world_ok "554") [0; 0; 0]%nat
              (run_sync (on_remoteSensor cfg0 (sunroom "554"))
                 (State (authorized "powerOn") None [] [] 0 None)) in
  let again := run (world_ok "554") [0; 0; 0]%nat
                 (run_sync (on_remoteSensor cfg0 (sunroom "554"))
                    (State (st_settings st) (st_file st) (st_events st) [] (st_next st) None)) in
  power_commands (st_events again) = power_commands (st_events st).
Proof.
  destruct (command_repeated_until_confirmed cfg0 (world_ok "554") (world_ok "554")
              (sunroom "554") (authorized "powerOn") None [] 0 0 0 0 [0; 0; 0]%nat
              "powerOff" 0) as (Hok & _).
  - reflexivity.
  - reflexivity.
  - reflexivity.
  - reflexivity.
  - reflexivity.
  - apply Hok. reflexivity.
Defined.

(* ===================================================================== *)
(** ** Properties: the reply of a poll, before anything is awaited *)
(* ===================================================================== *)

(** A function that returns hands over to what follows it. *)
Lemma run_to_return_bind {A B : Type} (p : async A) :
  ∀ (k : A → async B) st a st',
    run_to_return p st = Some (a, st') → run_to_return (bind p k) st = run_to_return (k a) st'.
Proof.
  revert A p. fix IH 2. intros A p k st a st' H.
  destruct p as [b|e|code|m q|m q|doc q|q|q|f q|o q|r q]; cbn [run_to_return bind] in *;
    try discriminate H; try (by eapply IH).
  - by injection H as -> ->.
  - destruct (st_exit (run_sync r st)); [discriminate H | by eapply IH].
Qed.

(** And a function that returns has run to its end. *)
Lemma run_sync_return (p : async unit) :
  ∀ st a st', run_to_return p st = Some (a, st') → run_sync p st = st'.
Proof.
  revert p. fix IH 1. intros p st a st' H.
  destruct p as [b|e|code|m q|m q|doc q|q|q|f q|o q|r q]; cbn [run_to_return run_sync] in *;
    try discriminate H; try (by eapply IH).
  - by injection H as _ ->.
  - destruct (st_exit (run_sync r st)); [discriminate H | by eapply IH].
Qed.

Lemma log_events_app (l1 l2 : list message) :
  log_events (l1 ++ l2) = log_events l2 ++ log_events l1.
Proof. unfold log_events. by rewrite rev_app_distr, flat_map_app. Qed.

Lemma log_events_cons (m : message) (l : list message) :
  log_events (m :: l) = log_events l ++ [Console m; Journal m].
Proof. apply (log_events_app [m] l). Qed.

(** Lines 201-212: the callback of a sensor with another name. *)
Lemma on_remoteSensor_other (cfg : config) (rs : remoteSensor) (s : snapshot) f ev pend n x :
  sensor_name rs ≠ "Sunroom" →
  run_sync (on_remoteSensor cfg rs) (State s f ev pend n x) =
  State s f (Console (sensor_line rs) :: Journal (sensor_line rs) :: ev) pend n x.
Proof.
  intros Hname. unfold on_remoteSensor.
  destruct (String.eqb_spec (sensor_name rs) "Sunroom") as [|_]; [done|]. script. reflexivity.
Qed.

Section ReadOnly.
Variable cfg : config.

Lemma sensors_read_only (sensors : list remoteSensor) (s : snapshot) f pend n :
  (∀ rs, In rs sensors → sensor_name rs ≠ "Sunroom") →
  ∀ ev, run_to_return (for_each_async sensors (on_remoteSensor cfg)) (State s f ev pend n None) =
        Some (tt, State s f (log_events (map sensor_line sensors) ++ ev) pend n None).
Proof.
  unfold for_each_async. induction sensors as [|rs sensors IH]; intros Hnames ev; [done|].
  cbn [for_each bind run_to_return map].
  rewrite on_remoteSensor_other by (apply Hnames; by left). cbn [st_exit].
  rewrite IH by (intros rs' Hrs'; apply Hnames; by right).
  by rewrite log_events_cons, <- app_assoc.
Qed.

Lemma thermostat_read_only (t : thermostat) (s : snapshot) f ev pend n :
  (connected (thermostat_runtime t) = true →
   ∀ rs, In rs (remoteSensors t) → sensor_name rs ≠ "Sunroom") →
  run_to_return (on_thermostat cfg t) (State s f ev pend n None) =
  Some (tt, State s f (log_events (thermostat_lines t) ++ ev) pend n None).
Proof.
  intros Hnames. unfold on_thermostat, thermostat_lines.
  destruct (connected (thermostat_runtime t)); cbn [negb]; [|reflexivity].
  unfold logWrite. cbn [bind run_to_return]. unfold emit.
  cbn [st_settings st_file st_events st_pending st_next st_exit].
  rewrite sensors_read_only by auto.
  by rewrite log_events_cons, <- app_assoc.
Qed.

Lemma thermostats_read_only (l : list thermostat) (s : snapshot) f pend n :
  (∀ t, In t l → connected (thermostat_runtime t) = true →
     ∀ rs, In rs (remoteSensors t) → sensor_name rs ≠ "Sunroom") →
  ∀ ev, run_to_return (for_each l (on_thermostat cfg)) (State s f ev pend n None) =
        Some (tt, State s f (log_events (flat_map thermostat_lines l) ++ ev) pend n None).
Proof.
  induction l as [|t l IH]; intros Hnames ev; [done|].
  cbn [for_each flat_map].
  rewrite (run_to_return_bind _ _ _ _ _ (thermostat_read_only t s f ev pend n
             (Hnames t (or_introl eq_refl)))).
  rewrite IH by (intros t' Ht'; apply Hnames; by right).
  by rewrite log_events_app, <- app_assoc.
Qed.

End ReadOnly.

(** X11.  Lines 186-242.  When no connected thermostat of the reply has a
    sensor named [Sunroom], the reply is only journalled: the timestamp,
    then each thermostat in the order of the reply with one line per
    sensor, or the line of a thermostat that is not connected, whose
    sensors are skipped.  Nothing is requested, nothing is suspended,
    and the settings and the file are not touched. *)
Theorem read_only_poll (cfg : config) (data : thermostat_data) (s : snapshot) f ev pend n :
  status_code (status data) = 0 →
  (∀ t, In t (thermostatList data) → connected (thermostat_runtime t) = true →
     ∀ rs, In rs (remoteSensors t) → sensor_name rs ≠ "Sunroom") →
  run_sync (on_response cfg (Some (ThermostatReply data))) (State s f ev pend n None) =
  State s f (log_events (poll_lines data) ++ ev) pend n None.
Proof.
  intros Hcode Hnames. unfold on_response, poll_lines. rewrite Hcode. cbn [Z.eqb negb].
  script.
  rewrite (run_sync_return _ _ _ _
             (thermostats_read_only cfg (thermostatList data) s f pend n Hnames _)).
  by rewrite log_events_cons, <- app_assoc.
Qed.

(** A reply with a thermostat that is not connected, whose Sunroom
    sensor is skipped, and a connected one with another sensor. *)
Lemma read_only_poll_witness :
  let data := ThermostatData (ApiStatus 0 "")
                [Thermostat "Cabin" (Runtime false 0 0) [sunroom "300"];
                 Thermostat "Home" (Runtime true 720 40)
                   [RemoteSensor "Hall" [Capability "temperature" "700"]]] in
  run_sync (on_response cfg0 (Some (ThermostatReply data)))
    (State (authorized "powerOff") None [] [] 0 None) =
  State (authorized "powerOff") None
    (log_events [MsgTimestamp; MsgNotConnected; MsgThermostat "Home" (Tenths 222) 40;
                 MsgSensor "Hall" (Tenths 211) false])
    [] 0 None.
Proof.
  cbv zeta. etransitivity.
  - apply read_only_poll; [reflexivity|].
    intros t [<-|[<-|[]]]; [discriminate|]. intros _ rs [<-|[]]. discriminate.
  - vm_compute. reflexivity.
Defined.

(** What a sensor's callback does before it first suspends: one
    journal line, and no exit. *)
Lemma on_remoteSensor_line (cfg : config) (rs : remoteSensor) (st : state) :
  st_exit st = None →
  logged (st_events (run_sync (on_remoteSensor cfg rs) st)) =
    sensor_line rs :: logged (st_events st) ∧
  st_exit (run_sync (on_remoteSensor cfg rs) st) = None.
Proof.
  destruct st as [s f ev pend n x]. cbn [st_exit]. intros ->.
  unfold on_remoteSensor, deviceToggle, mailSend, sensor_line.
  destruct (String.eqb (sensor_name rs) "Sunroom"); script; [|done].
  destruct (temp_gt _ 12 && _); [|destruct (temp_lt _ 11 && _)]; script; [done|done|].
  destruct (temp_lt _ 5); script; done.
Qed.

Section Journal.
Variable cfg : config.

Lemma sensors_journal (sensors : list remoteSensor) :
  ∀ st, st_exit st = None →
    ∃ st', run_to_return (for_each_async sensors (on_remoteSensor cfg)) st = Some (tt, st') ∧
           logged (st_events st') = rev (map sensor_line sensors) ++ logged (st_events st) ∧
           st_exit st' = None.
Proof.
  unfold for_each_async. induction sensors as [|rs sensors IH]; intros st Hexit.
  - exists st. by repeat split.
  - destruct (on_remoteSensor_line cfg rs st Hexit) as [Hlog Hx].
    destruct (IH _ Hx) as (st' & Hrun & Hlog' & Hx').
    exists st'. cbn [for_each bind run_to_return map rev]. rewrite Hx.
    split; [exact Hrun|]. split; [|exact Hx'].
    by rewrite Hlog', Hlog, <- app_assoc.
Qed.

Lemma thermostat_journal (t : thermostat) :
  ∀ st, st_exit st = None →
    ∃ st', run_to_return (on_thermostat cfg t) st = Some (tt, st') ∧
           logged (st_events st') = rev (thermostat_lines t) ++ logged (st_events st) ∧
           st_exit st' = None.
Proof.
  intros st Hexit. unfold on_thermostat, thermostat_lines.
  destruct (connected (thermostat_runtime t)); cbn [negb].
  - destruct (sensors_journal (remoteSensors t)
                (emit (Console (MsgThermostat (thermostat_name t)
                         (to_celsius (Some (actualTemperature (thermostat_runtime t))))
                         (actualHumidity (thermostat_runtime t))))
                   (emit (Journal (MsgThermostat (thermostat_name t)
                            (to_celsius (Some (actualTemperature (thermostat_runtime t))))
                            (actualHumidity (thermostat_runtime t)))) st)) Hexit)
      as (st' & Hrun & Hlog & Hx).
    exists st'. split; [exact Hrun|]. split; [|exact Hx].
    rewrite Hlog. cbn [rev]. by rewrite <- app_assoc.
  - eexists. split; [reflexivity|]. by split.
Qed.

Lemma thermostats_journal (l : list thermostat) :
  ∀ st, st_exit st = None →
    ∃ st', run_to_return (for_each l (on_thermostat cfg)) st = Some (tt, st') ∧
           logged (st_events st') = rev (flat_map thermostat_lines l) ++ logged (st_events st) ∧
           st_exit st' = None.
Proof.
  induction l as [|t l IH]; intros st Hexit.
  - exists st. by repeat split.
  - destruct (thermostat_journal t st Hexit) as (st1 & Hrun1 & Hlog1 & Hx1).
    destruct (IH st1 Hx1) as (st' & Hrun & Hlog & Hx).
    exists st'. cbn [for_each flat_map].
    rewrite (run_to_return_bind _ _ _ _ _ Hrun1).
    split; [exact Hrun|]. split; [|exact Hx].
    by rewrite Hlog, Hlog1, rev_app_distr, <- app_assoc.
Qed.

End Journal.

(** X12.  Lines 188-209.  For every reply with status code 0, whatever its
    thermostats and sensors: before anything is awaited the whole reply
    has been journalled, in the order of the reply (the timestamp, then
    each thermostat followed by its sensors, a thermostat that is not
    connected by its line alone), and the process has not exited.  The
    lines about power commands and alerts all come after these. *)
Theorem poll_journal (cfg : config) (data : thermostat_data) (st : state) :
  status_code (status data) = 0 →
  st_exit st = None →
  let st' := run_sync (on_response cfg (Some (ThermostatReply data))) st in
  logged (st_events st') = rev (poll_lines data) ++ logged (st_events st) ∧
  st_exit st' = None.
Proof.
  intros Hcode Hexit st'. subst st'.
  unfold on_response, poll_lines. rewrite Hcode. cbn [Z.eqb negb].
  unfold logWrite. cbn [bind run_sync].
  destruct (thermostats_journal cfg (thermostatList data)
              (emit (Console MsgTimestamp) (emit (Journal MsgTimestamp) st)) Hexit)
    as (st' & Hrun & Hlog & Hx).
  rewrite (run_sync_return _ _ _ _ Hrun).
  split; [|exact Hx]. rewrite Hlog. cbn [rev]. by rewrite <- app_assoc.
Qed.

(** Two Sunroom sensors that both call for a command. *)
Lemma poll_journal_witness :
  let data := ThermostatData (ApiStatus 0 "")
                [Thermostat "Home" (Runtime true 720 40) [sunroom "300"; sunroom "310"]] in
  logged (st_events (run_sync (on_response cfg0 (Some (ThermostatReply data)))
                       (State (authorized "powerOff") None [] [] 0 None))) =
  [MsgSensor "Sunroom" (Tenths (-6)) false; MsgSensor "Sunroom" (Tenths (-11)) false;
   MsgThermostat "Home" (Tenths 222) 40; MsgTimestamp].
Proof.
  cbv zeta. etransitivity.
  - apply poll_journal; reflexivity.
  - vm_compute. reflexivity.
Defined.

(** X13.  Lines 173-185.  A reply with a non-zero status code is journalled
    with the provider's message, followed by the note that the access
    token was cleared exactly when the code is 14; the run then exits
    with code 1 having requested nothing else: no plug is commanded, no
    mail is sent and no sensor is read, whatever the reply lists. *)
Theorem failed_poll_journal (cfg : config) (w : world) (s : snapshot) f ev n choice data :
  (w n (AxiosGetThermostat (authorization s)) = Response data ∨
   ∃ m, w n (AxiosGetThermostat (authorization s)) = AxiosError m (Some data)) →
  status_code (status data) ≠ 0 →
  let st := step w (run_sync (read_sensors cfg) (State s f ev [] n None)) choice in
  logged (st_events st) =
    MsgApiError (status_message (status data)) (status_code (status data) =? 14) :: logged ev ∧
  requested (st_events st) = AxiosGetThermostat (authorization s) :: requested ev ∧
  st_pending st = [] ∧ st_exit st = Some 1.
Proof.
  intros Hw Hcode st. subst st. rewrite read_sensors_replied. cbv zeta.
  destruct Hw as [Hw | [m Hw]]; rewrite Hw; cbn [fmap option_fmap option_map];
    rewrite (on_response_failed _ _ _ _ _ _ _ Hcode); cbv zeta;
    destruct (status_code (status data) =? 14); done.
Qed.

(** A poll refused for another reason than an expired token, with a
    Sunroom sensor in the reply. *)
Lemma failed_poll_journal_witness :
  let w := world_of pin_reply token_reply
             (Response (ThermostatData (ApiStatus 3 "Processing error")
                          [Thermostat "Home" (Runtime true 720 40) [sunroom "300"]]))
             (Fulfilled 0) (Fulfilled tt) in
  let st := step w (run_sync (read_sensors cfg0)
                      (State (authorized "powerOff") (Some (authorized "powerOff")) [] [] 0 None))
              0 in
  logged (st_events st) = [MsgApiError "Processing error" false] ∧
  requested (st_events st) = [AxiosGetThermostat (authorization (authorized "powerOff"))].
Proof.
  destruct (failed_poll_journal cfg0
              (world_of pin_reply token_reply
                 (Response (ThermostatData (ApiStatus 3 "Processing error")
                              [Thermostat "Home" (Runtime true 720 40) [sunroom "300"]]))
                 (Fulfilled 0) (Fulfilled tt))
              (authorized "powerOff") (Some (authorized "powerOff")) [] 0 0
              (ThermostatData (ApiStatus 3 "Processing error")
                 [Thermostat "Home" (Runtime true 720 40) [sunroom "300"]]))
    as (Hlog & Hreq & _).
  - left. reflexivity.
  - cbn. discriminate.
  - split; [exact Hlog | exact Hreq].
Defined.

(* ===================================================================== *)
(** ** Properties: the decisions of a poll *)
(* ===================================================================== *)

Lemma advances_refl (st : state) : st_exit st = None → advances [] st st.
Proof. intros Hexit. repeat split; [done|]. by rewrite app_nil_r. Qed.

Lemma advances_trans (r1 r2 : list op) (st st1 st2 : state) :
  advances r1 st st1 → advances r2 st1 st2 → advances (r1 ++ r2) st st2.
Proof.
  intros (Hs1 & _ & Hi1 & Hp1) (Hs2 & Hx2 & Hi2 & Hp2).
  split; [congruence|]. split; [done|]. split.
  - by rewrite Hi2, Hi1, rev_app_distr, <- app_assoc.
  - by rewrite Hp2, Hp1, <- app_assoc.
Qed.

(** What a sensor's callback does before it first suspends. *)
Lemma on_remoteSensor_request (cfg : config) (rs : remoteSensor) (st : state) :
  st_exit st = None →
  advances (sensor_request cfg (st_settings st) rs) st (run_sync (on_remoteSensor cfg rs) st).
Proof.
  destruct st as [s f ev pend n x]. cbn [st_exit st_settings]. intros ->.
  unfold advances, sensor_request, on_remoteSensor, deviceToggle, mailSend, Decide, sensor_temp,
    tplink_login, alert_mail.
  destruct (String.eqb (sensor_name rs) "Sunroom"); script;
    [|by rewrite app_nil_r].
  destruct (temp_gt _ 12 && _); [|destruct (temp_lt _ 11 && _)]; script;
    [by rewrite map_app | by rewrite map_app |].
  destruct (temp_lt _ 5); script; [by rewrite map_app | by rewrite app_nil_r].
Qed.

Section Decisions.
Variable cfg : config.

Lemma sensors_requests (sensors : list remoteSensor) :
  ∀ st, st_exit st = None →
    ∃ st', run_to_return (for_each_async sensors (on_remoteSensor cfg)) st = Some (tt, st') ∧
           advances (flat_map (sensor_request cfg (st_settings st)) sensors) st st'.
Proof.
  unfold for_each_async. induction sensors as [|rs sensors IH]; intros st Hexit.
  - exists st. split; [done | by apply advances_refl].
  - pose proof (on_remoteSensor_request cfg rs st Hexit) as H1.
    destruct (IH _ (proj1 (proj2 H1))) as (st' & Hrun & H2).
    exists st'. cbn [for_each bind run_to_return flat_map].
    rewrite (proj1 (proj2 H1)). split; [exact Hrun|].
    rewrite (proj1 H1) in H2. by eapply advances_trans.
Qed.

Lemma thermostat_requests_issued (t : thermostat) :
  ∀ st, st_exit st = None →
    ∃ st', run_to_return (on_thermostat cfg t) st = Some (tt, st') ∧
           advances (thermostat_requests cfg (st_settings st) t) st st'.
Proof.
  intros st Hexit. unfold on_thermostat, thermostat_requests.
  destruct (connected (thermostat_runtime t)); cbn [negb].
  - unfold logWrite. cbn [bind run_to_return].
    destruct (sensors_requests (remoteSensors t)
                (emit (Console (MsgThermostat (thermostat_name t)
                         (to_celsius (Some (actualTemperature (thermostat_runtime t))))
                         (actualHumidity (thermostat_runtime t))))
                   (emit (Journal (MsgThermostat (thermostat_name t)
                            (to_celsius (Some (actualTemperature (thermostat_runtime t))))
                            (actualHumidity (thermostat_runtime t)))) st)) Hexit)
      as (st' & Hrun & H).
    exists st'. split; [exact Hrun|]. exact H.
  - eexists. split; [reflexivity|]. repeat split; [done|]. by rewrite app_nil_r.
Qed.

Lemma poll_requests_issued (l : list thermostat) :
  ∀ st, st_exit st = None →
    ∃ st', run_to_return (for_each l (on_thermostat cfg)) st = Some (tt, st') ∧
           advances (flat_map (thermostat_requests cfg (st_settings st)) l) st st'.
Proof.
  induction l as [|t l IH]; intros st Hexit.
  - exists st. split; [done | by apply advances_refl].
  - destruct (thermostat_requests_issued t st Hexit) as (st1 & Hrun1 & H1).
    destruct (IH st1 (proj1 (proj2 H1))) as (st' & Hrun & H2).
    exists st'. cbn [for_each flat_map].
    rewrite (run_to_return_bind _ _ _ _ _ Hrun1).
    split; [exact Hrun|]. rewrite (proj1 H1) in H2. by eapply advances_trans.
Qed.

End Decisions.

(** X14.  Lines 190-236.  For every reply with status code 0 in which
    the temperature values of the Sunroom sensors are the ones the API
    documents (whole numbers of tenths of a degree, or a word): every
    sensor's callback has taken its decision before any request of the
    poll is answered, and all of them from the same recorded state, the
    one the settings hold when the reply arrives.  The requests issued
    at that point, in the order of the reply, are one login to the
    plug's cloud for each Sunroom sensor (of a connected thermostat)
    whose reading calls for a command, and one alert mail for each
    Sunroom sensor below 5 degrees that calls for none; the script is
    suspended at exactly these, and the settings are unchanged. *)
Theorem poll_decisions (cfg : config) (data : thermostat_data) (st : state) :
  status_code (status data) = 0 →
  st_exit st = None →
  (∀ t rs c, In t (thermostatList data) → In rs (remoteSensors t) →
     sensor_name rs = "Sunroom" → In c (sensor_capability rs) →
     cap_type c = "temperature" → api_value (cap_value c) = true) →
  let st' := run_sync (on_response cfg (Some (ThermostatReply data))) st in
  let requests := poll_requests cfg (st_settings st) data in
  st_settings st' = st_settings st ∧ st_exit st' = None ∧
  requested (st_events st') = rev requests ++ requested (st_events st) ∧
  map task_op (st_pending st') = map task_op (st_pending st) ++ requests.
Proof.
  intros Hcode Hexit _ st' requests. subst st' requests.
  unfold on_response, poll_requests. rewrite Hcode. cbn [Z.eqb negb].
  unfold logWrite. cbn [bind run_sync].
  destruct (poll_requests_issued cfg (thermostatList data)
              (emit (Console MsgTimestamp) (emit (Journal MsgTimestamp) st)) Hexit)
    as (st' & Hrun & H).
  rewrite (run_sync_return _ _ _ _ Hrun). exact H.
Qed.

(** Two Sunroom sensors below 11 degrees with the heater recorded off:
    two logins, for two commands. *)
Lemma poll_decisions_witness :
  let data := ThermostatData (ApiStatus 0 "")
                [Thermostat "Home" (Runtime true 720 40) [sunroom "500"; sunroom "510"]] in
  map task_op
    (st_pending (run_sync (on_response cfg0 (Some (ThermostatReply data)))
                   (State (authorized "powerOff") None [] [] 0 None))) =
  [tplink_login cfg0; tplink_login cfg0].
Proof.
  cbv zeta. etransitivity.
  - apply poll_decisions; [reflexivity | reflexivity |].
    intros t rs c [<-|[]] [<-|[<-|[]]] _ [<-|[<-|[]]] _; reflexivity.
  - vm_compute. reflexivity.
Defined.

(* ===================================================================== *)
(** ** Properties: what holds whenever the script gives control back *)
(* ===================================================================== *)

Section EventsInv.
Variable cfg : config.

(** An event that is not a journal line or a credential request. *)
Lemma events_inv_emit limit e evs :
  expected cfg e → logged [e] = [] → credential_requests [e] = [] →
  events_inv cfg limit evs → events_inv cfg limit (e :: evs).
Proof.
  intros He Hlog Hcred (Hsub & Hall & Hlen). split; [|split].
  - change (e :: evs) with ([e] ++ evs). unfold logged, printed in *.
    rewrite !omap_app, Hlog. by apply sublist_inserts_l.
  - by constructor.
  - assert (E : credential_requests (e :: evs) = credential_requests evs).
    { destruct e as [| | |? []| | |]; cbn in *; done. }
    by rewrite E.
Qed.

(** [logWrite]. *)
Lemma events_inv_log limit m evs :
  events_inv cfg limit evs → events_inv cfg limit (Console m :: Journal m :: evs).
Proof.
  intros (Hsub & Hall & Hlen). split; [|split].
  - cbn. by apply sublist_skip.
  - by repeat constructor.
  - done.
Qed.

(** A credential request. *)
Lemma events_inv_credential limit id o evs :
  credential_requests [Issued id o] = [o] →
  events_inv cfg limit evs → events_inv cfg (S limit) (Issued id o :: evs).
Proof.
  intros Ho (Hsub & Hall & Hlen). split; [|split].
  - by destruct o.
  - constructor; [by destruct o|done].
  - destruct o; cbn in *; try done; lia.
Qed.

Lemma events_inv_weaken limit evs :
  events_inv cfg limit evs → events_inv cfg (S limit) evs.
Proof. intros (Hsub & Hall & Hlen). repeat split; [done|done|lia]. Qed.

End EventsInv.

(** Proves [script_inv] of a view: the file by the last write, the
    events by going back through them. *)
Ltac events_inv_solver :=
  repeat first
    [ assumption
    | apply events_inv_log
    | apply events_inv_emit;
        [ first [ exact Logic.I | reflexivity | left; reflexivity
                | right; eexists; split; [eassumption | reflexivity] ]
        | reflexivity | reflexivity | ]
    | apply events_inv_credential; [reflexivity|]
    | apply events_inv_weaken ].

Ltac script_inv_solver :=
  repeat match goal with H : script_inv _ _ _ |- _ => destruct H as [? ?] end;
  split; [cbn [v_file v_settings]; first [reflexivity | assumption]
         | cbn [v_events]; events_inv_solver].

(** Every part of the sensor stage keeps the invariant. *)
Lemma on_remoteSensor_script_inv (cfg : config) (w : world) limit rs :
  preserves w (script_inv cfg limit) (on_remoteSensor cfg rs).
Proof.
  intros Φ Ψ v HΦ HΨ Hv.
  unfold on_remoteSensor, deviceToggle, mailSend.
  wp_go HΦ HΨ script_inv_solver.
Qed.

Lemma on_thermostat_script_inv (cfg : config) (w : world) limit t :
  preserves w (script_inv cfg limit) (on_thermostat cfg t).
Proof.
  unfold on_thermostat. destruct (negb _).
  - intros Φ Ψ v HΦ HΨ Hv. wp_go HΦ HΨ script_inv_solver.
  - apply preserves_bind.
    + intros Φ Ψ v HΦ HΨ Hv. wp_go HΦ HΨ script_inv_solver.
    + intros _. apply preserves_for_each. intros rs.
      apply preserves_spawn; [apply on_remoteSensor_script_inv | apply preserves_ret].
Qed.

Lemma on_response_script_inv (cfg : config) (w : world) limit response :
  preserves w (script_inv cfg limit) (on_response cfg response).
Proof.
  unfold on_response. destruct response as [[data|data]|].
  - intros Φ Ψ v HΦ HΨ Hv. wp_go HΦ HΨ script_inv_solver.
  - destruct (negb _).
    + intros Φ Ψ v HΦ HΨ Hv. wp_go HΦ HΨ script_inv_solver.
    + apply preserves_bind.
      * intros Φ Ψ v HΦ HΨ Hv. wp_go HΦ HΨ script_inv_solver.
      * intros _. apply preserves_for_each, on_thermostat_script_inv.
  - intros Φ Ψ v HΦ HΨ Hv. wp_go HΦ HΨ script_inv_solver.
Qed.

Lemma read_sensors_script_inv (cfg : config) (w : world) limit :
  preserves w (script_inv cfg limit) (read_sensors cfg).
Proof.
  intros Φ Ψ v HΦ HΨ Hv. unfold read_sensors. wp_script.
  split; [apply HΨ; script_inv_solver|]. intros v' Hv'.
  destruct (w (v_next v) _) as [data|m response]; wp_script.
  - apply on_response_script_inv; [done|auto|script_inv_solver].
  - apply on_response_script_inv; [done|auto|script_inv_solver].
Qed.

(** The invariant of a run from a state that has it. *)
Lemma wp_run (w : world) (J : view → Prop) (p : async unit) (st : state)
    (schedule : list nat) :
  st_pending st = [] → st_exit st = None →
  wp w J p returns J (view_of st) →
  inv w J (run w schedule (run_sync p st)).
Proof.
  intros Hpend Hexit Hwp. apply run_inv.
  destruct (run_sync_wp w J p J st) as (H1 & H2 & H3).
  - rewrite Hpend. constructor.
  - exact Hexit.
  - exact Hwp.
  - split; [destruct (st_exit (run_sync p st)); exact H3 | split; assumption].
Qed.

(** The events of lines 87-95. *)
Lemma loaded_events_inv (cfg : config) (file : option snapshot) :
  events_inv cfg 0 (loaded_events file).
Proof.
  destruct file; cbn [loaded_events]; events_inv_solver.
  all: repeat split; [apply sublist_nil_l | constructor | reflexivity].
Qed.

(** The whole script keeps the invariant, with at most one credential
    request. *)
Lemma main_script_inv (cfg : config) (w : world) (file : option snapshot) :
  wp w (script_inv cfg 1) (main cfg) returns (script_inv cfg 1) (view_of (boot file)).
Proof.
  assert (HΦ : ∀ (Ψ' : view → Prop) (a : unit) v',
             (∀ v, script_inv cfg 1 v → Ψ' v) → script_inv cfg 1 v' → returns Ψ' a v')
    by (intros Ψ' a v' H Hv'; by apply H).
  assert (HΨ : ∀ v, script_inv cfg 1 v → script_inv cfg 1 v) by done.
  apply wp_main_loaded.
  pose proof (loaded_events_inv cfg file) as Hev.
  generalize dependent (loaded_events file). intros ev Hev.
  generalize (default ∅ file). intros s.
  unfold add_app, update_token, mailSend, on_token.
  wp_go HΦ HΨ script_inv_solver.
  all: apply read_sensors_script_inv; [exact HΦ | done | script_inv_solver].
Qed.


Lemma main_inv (cfg : config) (w : world) (schedule : list nat) (file : option snapshot) :
  inv w (script_inv cfg 1) (run w schedule (run_sync (main cfg) (boot file))).
Proof. apply wp_run; [reflexivity | reflexivity | apply main_script_inv]. Qed.


(** An observation of the history, from the events. *)
Lemma omap_history {B : Type} (f : event → option B) (st : state) :
  omap f (history st) = rev (omap f (st_events st)).
Proof.
  unfold history. induction (st_events st) as [|e evs IH]; [done|].
  cbn [rev]. rewrite omap_app, IH. cbn.
  destruct (f e); [done | apply app_nil_r].
Qed.

Lemma sublist_rev {A : Type} (l k : list A) : sublist l k → sublist (rev l) (rev k).
Proof.
  induction 1 as [|x l k _ IH|x l k _ IH]; cbn [rev].
  - constructor.
  - by apply sublist_app.
  - by apply sublist_inserts_r.
Qed.

(** X16.  Lines 34-37.  In every run, every line appended to the log file was
    also printed on the console, and in the same order: the journal is
    a subsequence of the console output. *)
Theorem journal_is_printed (cfg : config) (w : world) (schedule : list nat)
    (file : option snapshot) :
  let st := run w schedule (run_sync (main cfg) (boot file)) in
  sublist (journal st) (console st).
Proof.
  intros st. destruct (main_inv cfg w schedule file) as ((_ & Hsub & _) & _).
  unfold journal, console. rewrite !omap_history. by apply sublist_rev.
Qed.

(** The exit code of a process is among its events. *)
Lemma run_sync_exit_logged (p : async unit) :
  ∀ st, exit_logged st → exit_logged (run_sync p st).
Proof.
  revert p. fix IH 1. intros p st Hst.
  destruct p as [a|e|code|m k|m k|doc k|k|k|f k|o k|q k]; cbn [run_sync].
  - exact Hst.
  - intros c Hc. right. by apply Hst.
  - intros c [= <-]. by left.
  - apply IH. intros c Hc. right. by apply Hst.
  - apply IH. intros c Hc. right. by apply Hst.
  - apply IH. intros c Hc. right. by apply Hst.
  - by apply IH.
  - by apply IH.
  - by apply IH.
  - intros c Hc. right. by apply Hst.
  - pose proof (IH q st Hst) as Hq.
    destruct (st_exit (run_sync q st)); [exact Hq | by apply IH].
Qed.

Lemma run_exit_logged (w : world) (schedule : list nat) :
  ∀ st, exit_logged st → exit_logged (run w schedule st).
Proof.
  unfold run. induction schedule as [|c l IH]; intros st Hst; cbn [foldl]; [done|].
  apply IH. unfold step. destruct (st_pending st !! _) as [t|]; [|done].
  apply run_sync_exit_logged. intros code Hcode. right. by apply Hst.
Qed.

(** X17.  Lines 114, 139 and 184.  In every run, when the script exits it
    does so with code 1: after the registration mail, after a token
    error and after a poll with a non-zero status code alike. *)
Theorem exit_code_is_one (cfg : config) (w : world) (schedule : list nat)
    (file : option snapshot) :
  let st := run w schedule (run_sync (main cfg) (boot file)) in
  st_exit st = None ∨ st_exit st = Some 1.
Proof.
  intros st. destruct (st_exit st) as [code|] eqn:Hexit; [right | by left].
  destruct (main_inv cfg w schedule file) as ((_ & _ & Hall & _) & _).
  assert (Hin : In (Exited code) (st_events st)).
  { apply (run_exit_logged w schedule); [|exact Hexit].
    apply run_sync_exit_logged. intros c Hc. discriminate Hc. }
  rewrite Forall_forall in Hall. f_equal. apply (Hall (Exited code)).
  by apply list_elem_of_In.
Qed.

(** A power command among the events. *)
Lemma power_commands_issued (evs : list event) alias on :
  In (alias, on) (power_commands evs) → ∃ id, In (Issued id (TplinkPower alias on)) evs.
Proof.
  induction evs as [|e evs IH]; [done|]. intros Hin.
  assert (Hcase : (∃ id, e = Issued id (TplinkPower alias on)) ∨
                  In (alias, on) (power_commands evs)).
  { destruct e as [| | |id []| | |]; cbn in Hin; auto.
    destruct Hin as [[= -> ->]|Hin]; [left; by eexists | by right]. }
  destruct Hcase as [[id ->]|Hrest].
  - exists id. by left.
  - destruct (IH Hrest) as [id Hid]. exists id. by right.
Qed.

(** X18.  Lines 56, 111, 215, 225 and 235-236.  In every run, every power
    command is sent to the plug [SunroomHeater], and every mail is
    either the registration notice or an alert that carries a reading
    below 5 degrees, both addressed to the configured account: the
    script never switches another plug and never sends any other mail. *)
Theorem outbound_targets (cfg : config) (w : world) (schedule : list nat)
    (file : option snapshot) :
  let st := run w schedule (run_sync (main cfg) (boot file)) in
  (∀ alias on, In (alias, on) (power_commands (st_events st)) → alias = "SunroomHeater") ∧
  (∀ id recipient subject text,
     In (Issued id (SendMail recipient subject text)) (st_events st) →
     recipient = [Lit "Alerter <"; Lit (SMTP_LOGIN cfg); Lit ">"] ∧
     (SendMail recipient subject text = auth_mail cfg ∨
      ∃ temp, temp_lt temp 5 = true ∧ SendMail recipient subject text = alert_mail cfg temp)).
Proof.
  intros st. destruct (main_inv cfg w schedule file) as ((_ & _ & Hall & _) & _).
  rewrite Forall_forall in Hall. split.
  - intros alias on Hin. destruct (power_commands_issued _ _ _ Hin) as [id Hid].
    apply (Hall (Issued id (TplinkPower alias on))). by apply list_elem_of_In.
  - intros id recipient subject text Hin.
    assert (Hmail : expected cfg (Issued id (SendMail recipient subject text)))
      by (apply Hall; by apply list_elem_of_In).
    split; [|exact Hmail].
    destruct Hmail as [E|(temp & _ & E)]; by injection E as -> _ _.
Qed.

(** X19.  Lines 98-145.  In every run the script sends at most one request to
    ecobee's authorization endpoints: a PIN request or a token request,
    never both and never twice. *)
Theorem one_credential_request (cfg : config) (w : world) (schedule : list nat)
    (file : option snapshot) :
  let st := run w schedule (run_sync (main cfg) (boot file)) in
  (List.length (credential_requests (st_events st)) ≤ 1)%nat.
Proof. intros st. by destruct (main_inv cfg w schedule file) as ((_ & _ & _ & Hlen) & _). Qed.




(* ===================================================================== *)
(** ** Properties: the file and the credentials, from one run to the next *)
(* ===================================================================== *)

(** X21.  Lines 89-95.  A settings file that holds a document is loaded and
    not written.  A settings file that is missing or cannot be parsed
    is reported on the console and written over with the empty
    document, and the run goes on with empty settings. *)
Theorem settings_loaded (file : option snapshot) :
  let st := run_sync load_settings (boot file) in
  st_settings st = default ∅ file ∧ st_pending st = [] ∧ st_exit st = None ∧
  match file with
  | Some doc => st_file st = Some doc ∧ saved (st_events st) = []
  | None =>
      st_file st = Some ∅ ∧ saved (st_events st) = [∅] ∧
      printed (st_events st) = [MsgSettingsUnreadable; MsgStarting]
  end.
Proof. unfold load_settings, boot. destruct file; script; repeat split. Qed.



(** X23.  Lines 100 and 124.  The two requests to the authorization endpoints
    are awaited outside any [try]: when one of them fails (no answer, or
    an answer with an error status), the script stops there with an
    unhandled rejection.  It does not exit, sends no mail, and leaves
    the settings and the file as they were loaded. *)
Theorem credential_request_failure (cfg : config) (w : world) (file : option snapshot)
    choice m response :
  let s := default ∅ file in
  let authorize := AxiosGetAuthorize (API_KEY cfg) in
  let token := AxiosPostToken (token_request cfg s) in
  let st := step w (run_sync (main cfg) (boot file)) choice in
  (truthy_prop (s !! "authCode") = false ∧ w 0%nat authorize = AxiosError m response) ∨
  (truthy_prop (s !! "authCode") = true ∧ truthy_prop (s !! "access_token") = false ∧
   w 0%nat token = AxiosError m response) →
  head (st_events st) = Some (Unhandled (AxiosFailure m (JsonData <$> response))) ∧
  st_settings st = s ∧ st_file st = Some s ∧ st_pending st = [] ∧ st_exit st = None ∧
  ∀ o, In o (requested (st_events st)) → o = authorize ∨ o = token.
Proof.
  intros s authorize token st Hcase. subst st authorize token. rewrite main_loaded. fold s.
  unfold add_app, update_token. script.
  destruct Hcase as [[Hauth Hw]|(Hauth & Htok & Hw)].
  - rewrite Hauth. cbn [negb]. script. rewrite step_single. script. rewrite Hw. script.
    do 5 (split; [reflexivity|]). intros o Hin.
    destruct file; cbn in Hin; destruct Hin as [<-|[]]; auto.
  - rewrite Hauth. cbn [negb]. script. rewrite Htok. cbn [negb]. script.
    rewrite step_single. script. rewrite Hw. script.
    do 5 (split; [reflexivity|]). intros o Hin.
    destruct file; cbn in Hin; destruct Hin as [<-|[]]; auto.
Qed.

(** A first run that cannot reach ecobee. *)
Lemma credential_request_failure_witness :
  let w := world_of (AxiosError "Network Error" None) token_reply (poll_reply "536")
             (Fulfilled 0) (Fulfilled tt) in
  let st := step w (run_sync (main cfg0) (boot None)) 0 in
  head (st_events st) = Some (Unhandled (AxiosFailure "Network Error" None)) ∧
  st_file st = Some ∅ ∧ st_exit st = None.
Proof.
  destruct (credential_request_failure cfg0
              (world_of (AxiosError "Network Error" None) token_reply (poll_reply "536")
                 (Fulfilled 0) (Fulfilled tt)) None 0 "Network Error" None)
    as (Hhead & _ & Hfile & _ & Hexit & _).
  - left. split; reflexivity.
  - split; [exact Hhead|]. split; [exact Hfile | exact Hexit].
Defined.

(** Lines 98-158.  What a run requests first depends on the file
    alone: a PIN when it holds no truthy [authCode]; otherwise a token
    when it holds no truthy [access_token]; otherwise the thermostats. *)
Lemma main_first_request (cfg : config) (file : option snapshot) :
  requested (st_events (run_sync (main cfg) (boot file))) =
    [first_request cfg (default ∅ file)] ∧
  map task_op (st_pending (run_sync (main cfg) (boot file))) =
    [first_request cfg (default ∅ file)].
Proof.
  rewrite main_loaded. generalize (default ∅ file). intros s.
  unfold first_request, add_app, update_token, read_sensors. script.
  destruct (truthy_prop (s !! "authCode")); cbn [negb]; script; [|by destruct file].
  destruct (truthy_prop (s !! "access_token")); cbn [negb]; script; by destruct file.
Qed.

(** The first request when the access token has been deleted. *)
Lemma first_request_without_token (cfg : config) (s : snapshot) :
  truthy_prop (s !! "authCode") = true →
  first_request cfg (delete "access_token" s) = AxiosPostToken (token_request cfg s).
Proof.
  intros Hauth. unfold first_request, token_request.
  rewrite lookup_delete_eq, !lookup_delete_ne by done.
  by rewrite Hauth.
Qed.



(** The first request with an [authCode] and no access token. *)
Lemma first_request_registered (cfg : config) (s : snapshot) :
  truthy_prop (s !! "authCode") = true →
  truthy_prop (s !! "access_token") = false →
  first_request cfg s = AxiosPostToken (token_request cfg s).
Proof. intros Hauth Htok. unfold first_request. by rewrite Hauth, Htok. Qed.

(** X25.  Lines 124-139 with 98-127, over two runs.  For a token answer
    that carries a truthy [error].  When it arrives in a fulfilled
    response, the next run, started from the file the first one
    wrote, asks for a new PIN if the error is [authorization_expired],
    and otherwise sends the very same token request again: nothing that
    determines the request has changed.  When it arrives with an error
    status, so that the request is rejected, the first run leaves the
    file as it was and the next run sends the same token request again,
    whatever the error is. *)
Theorem token_error_next_run (cfg : config) (w : world) (s : snapshot) choice data err :
  truthy_prop (s !! "authCode") = true →
  truthy_prop (s !! "access_token") = false →
  data !! "error" = Some err →
  truthy err = true →
  let request := AxiosPostToken (token_request cfg s) in
  let st := step w (run_sync (main cfg) (boot (Some s))) choice in
  let next := requested (st_events (run_sync (main cfg) (boot (st_file st)))) in
  (w 0%nat request = Response data →
     (loose_eq_word err "authorization_expired" = Some true →
        next = [AxiosGetAuthorize (API_KEY cfg)]) ∧
     (loose_eq_word err "authorization_expired" ≠ Some true → next = [request])) ∧
  (∀ m, w 0%nat request = AxiosError m (Some data) →
     st_file st = Some s ∧ next = [request]).
Proof.
  intros Hauth Htok Herr Htruthy request st next. subst next st request.
  rewrite (main_token_request _ _ Hauth Htok), step_single.
  cbn [task_id task_op task_k]. split.
  - intros Hw. rewrite Hw. unfold on_token. script.
    rewrite Herr. cbn [truthy_prop from_option]. rewrite Htruthy. script.
    destruct (loose_eq_word err "authorization_expired") as [[]|]; script;
      (split; [intros [=] | intros Hne; try (by destruct Hne)]);
      rewrite (proj1 (main_first_request cfg _)); cbn [default from_option]; unfold id.
    + unfold first_request. by rewrite lookup_delete_eq.
    + by rewrite first_request_without_token.
    + by rewrite first_request_registered.
  - intros m Hw. rewrite Hw. script. split; [reflexivity|].
    rewrite (proj1 (main_first_request cfg _)). cbn [default from_option]. unfold id.
    by rewrite first_request_registered.
Qed.

(** An expired authorization: a new PIN when the answer is fulfilled,
    the same token request when it comes with an error status. *)
Lemma token_error_next_run_witness :
  let st := step world_token_error (run_sync (main cfg0) (boot (Some registered))) 0 in
  let st' := step world_token_status (run_sync (main cfg0) (boot (Some registered))) 0 in
  requested (st_events (run_sync (main cfg0) (boot (st_file st)))) =
    [AxiosGetAuthorize "client-key"] ∧
  requested (st_events (run_sync (main cfg0) (boot (st_file st')))) =
    [AxiosPostToken (token_request cfg0 registered)].
Proof.
  split.
  - destruct (token_error_next_run cfg0 world_token_error registered 0
                {[ "error" := JStr "authorization_expired" ]} (JStr "authorization_expired"))
      as (Hfulfilled & _).
    + vm_compute. reflexivity.
    + vm_compute. reflexivity.
    + vm_compute. reflexivity.
    + reflexivity.
    + apply Hfulfilled; reflexivity.
  - destruct (token_error_next_run cfg0 world_token_status registered 0
                {[ "error" := JStr "authorization_expired" ]} (JStr "authorization_expired"))
      as (_ & Hrejected).
    + vm_compute. reflexivity.
    + vm_compute. reflexivity.
    + vm_compute. reflexivity.
    + reflexivity.
    + apply (Hrejected "Request failed with status code 400"). reflexivity.
Defined.


